(** * AlphaPy [alphapy/data.py]: rebalancing and quote-feed normalisation

    A shallow embedding of [sample_data], [get_google_data],
    [get_yahoo_data] and [get_feed_data], and the properties of the
    specification that concern them.

    Conventions.  Python [float] values are modelled by exact rationals
    ([Q]); statements about them use [==] ([Qeq]).  Epoch seconds and the
    integer ratios of class counts that occur here are exactly representable
    in a double, so no rounding is lost on them.  Exceptions are values of
    [exn]; a call that may raise returns [result A].  External
    collaborators (the HTTP client, the daily data reader, the local
    time zone, the imbalanced-learn samplers) are section variables. *)

From Stdlib Require Import ZArith QArith Qround List String Ascii Bool Lia.
From stdpp Require Import base option list strings sorting gmap.

Local Open Scope string_scope.
Local Open Scope list_scope.
Local Open Scope Z_scope.

(** ** Python primitives *)

Module Py.

(** The exceptions that the modelled code and the specification name. *)
Inductive exn : Type :=
| ZeroDivisionError
| IndexError
| KeyError (key : string)
| UnboundLocalError (name : string)
| ValueError (msg : string).

Definition result (A : Type) : Type := exn + A.

Definition ok {A} (a : A) : result A := inr a.
Definition raise {A} (e : exn) : result A := inl e.

Definition bind {A B} (r : result A) (k : A -> result B) : result B :=
  match r with
  | inl e => inl e
  | inr a => k a
  end.

Definition is_ok {A} (r : result A) : bool :=
  match r with inr _ => true | inl _ => false end.

(** [for x in xs: f x] collecting the values, stopping at the first
    exception. *)
Fixpoint mapM {A B} (f : A -> result B) (xs : list A) : result (list B) :=
  match xs with
  | [] => ok []
  | x :: xs' =>
      bind (f x) (fun y => bind (mapM f xs') (fun ys => ok (y :: ys)))
  end.

(** *** Strings *)

(** [s.split(sep)] for a one-character separator: never empty, the empty
    string gives one empty field. *)
Fixpoint split (sep : ascii) (s : string) : list string :=
  match s with
  | EmptyString => [EmptyString]
  | String c s' =>
      if Ascii.eqb c sep then EmptyString :: split sep s'
      else match split sep s' with
           | [] => [String c EmptyString]
           | h :: t => String c h :: t
           end
  end.

Definition code (c : ascii) : Z := Z.of_N (N_of_ascii c).

Definition is_upper (c : ascii) : bool := (65 <=? code c) && (code c <=? 90).
Definition is_lower (c : ascii) : bool := (97 <=? code c) && (code c <=? 122).

Definition shift_char (d : Z) (c : ascii) : ascii :=
  ascii_of_N (Z.to_N (code c + d)).

Fixpoint map_string (f : ascii -> ascii) (s : string) : string :=
  match s with
  | EmptyString => EmptyString
  | String c s' => String (f c) (map_string f s')
  end.

(** [s.lower()] and [s.upper()] on ASCII text (ticker symbols). *)
Definition lower (s : string) : string :=
  map_string (fun c => if is_upper c then shift_char 32 c else c) s.
Definition upper (s : string) : string :=
  map_string (fun c => if is_lower c then shift_char (-32) c else c) s.

(** [c in s] for a character [c]. *)
Fixpoint contains (c : ascii) (s : string) : bool :=
  match s with
  | EmptyString => false
  | String c' s' => Ascii.eqb c c' || contains c s'
  end.

(** *** Numeric literals *)

Definition digit_val (c : ascii) : option Z :=
  if (48 <=? code c) && (code c <=? 57) then Some (code c - 48) else None.

(** Consumes the longest prefix of decimal digits; returns its value
    (continuing [acc]), the number of digits read and the rest. *)
Fixpoint take_digits (s : string) (acc : Z) (n : nat) : Z * nat * string :=
  match s with
  | EmptyString => (acc, n, s)
  | String c s' =>
      match digit_val c with
      | Some d => take_digits s' (10 * acc + d) (S n)
      | None => (acc, n, s)
      end
  end.

Definition is_space (c : ascii) : bool :=
  let k := code c in (k =? 32) || ((9 <=? k) && (k <=? 13)).

Fixpoint lstrip (s : string) : string :=
  match s with
  | String c s' => if is_space c then lstrip s' else s
  | EmptyString => s
  end.

Fixpoint rstrip (s : string) : string :=
  match s with
  | EmptyString => EmptyString
  | String c s' =>
      match rstrip s' with
      | EmptyString => if is_space c then EmptyString else String c EmptyString
      | r => String c r
      end
  end.

Definition strip (s : string) : string := rstrip (lstrip s).

(** An optional sign: [true] for a leading minus. *)
Definition take_sign (s : string) : bool * string :=
  match s with
  | String "-" s' => (true, s')
  | String "+" s' => (false, s')
  | _ => (false, s)
  end.

Definition quote (s : string) : string := "'" +:+ s +:+ "'".

(** [int(s)] on text: surrounding white space, an optional sign and at
    least one decimal digit.  (Digit-group underscores are not covered.) *)
Definition int (s : string) : result Z :=
  let bad := ValueError ("invalid literal for int() with base 10: " +:+ quote s) in
  let '(neg, s1) := take_sign (strip s) in
  let '(v, n, rest) := take_digits s1 0 0 in
  match n, rest with
  | S _, EmptyString => ok (if neg then - v else v)
  | _, _ => raise bad
  end.

(** The exponent part of a float literal: nothing, or [e]/[E], an optional
    sign and at least one digit.  [None] when malformed. *)
Definition take_exponent (s : string) : option (Z * string) :=
  match s with
  | String c s' =>
      if Ascii.eqb c "e" || Ascii.eqb c "E" then
        let '(neg, s1) := take_sign s' in
        let '(v, n, rest) := take_digits s1 0 0 in
        match n with
        | O => None
        | S _ => Some (if neg then - v else v, rest)
        end
      else Some (0, s)
  | EmptyString => Some (0, s)
  end.

(** [float(s)] on text: surrounding white space, an optional sign, digits
    with an optional fraction (at least one digit in all) and an optional
    exponent.  The value is the exact decimal.  The literals [inf] and
    [nan] and digit-group underscores are not covered: they are rejected
    here although Python accepts them, and nothing below relies on their
    rejection. *)
Definition float (s : string) : result Q :=
  let bad := ValueError ("could not convert string to float: " +:+ quote s) in
  let '(neg, s1) := take_sign (strip s) in
  let '(ip, n1, s2) := take_digits s1 0 0 in
  let '(fp, n2, s3) :=
    match s2 with
    | String "." s' => take_digits s' 0 0
    | _ => (0, O, s2)
    end in
  match (n1 + n2)%nat, take_exponent s3 with
  | S _, Some (e, EmptyString) =>
      let m := (inject_Z ip + inject_Z fp / inject_Z (10 ^ Z.of_nat n2))%Q in
      let v := (m * Qpower (inject_Z 10) e)%Q in
      ok (if neg then (- v)%Q else v)
  | _, _ => raise bad
  end.

End Py.

Import Py.

Declare Scope py_scope.
Delimit Scope py_scope with py.
Notation "'let*' x ':=' e 'in' k" := (bind e (fun x => k))
  (at level 10, x name, e at level 100, k at level 200) : py_scope.
Local Open Scope py_scope.

(** [l[i]] on a sequence, for a non-negative index. *)
Definition getitem {A} (l : list A) (i : nat) : result A :=
  match l !! i with
  | Some a => ok a
  | None => raise IndexError
  end.

(** ** NumPy primitives used by [sample_data] *)

(** A double as NumPy produces it from a division: a finite value or one of
    the two special results of dividing by zero. *)
Inductive npfloat : Type :=
| Finite (q : Q)
| Inf
| NaN.

(** [a / b] on two [int64] scalars: true division, which on a zero divisor
    warns and returns [inf] (or [nan] for [0 / 0]) instead of raising. *)
Definition np_true_divide (a b : Z) : npfloat :=
  if b =? 0 then (if a =? 0 then NaN else Inf)
  else Finite (inject_Z a / inject_Z b)%Q.

Definition np_sub (x : npfloat) (c : Q) : npfloat :=
  match x with
  | Finite q => Finite (q - c)%Q
  | Inf => Inf
  | NaN => NaN
  end.

(** Insertion into a strictly increasing list, keeping it so. *)
Fixpoint insert_unique (x : Z) (l : list Z) : list Z :=
  match l with
  | [] => [x]
  | y :: l' =>
      if x <? y then x :: l
      else if x =? y then l
      else y :: insert_unique x l'
  end.

Definition count (v : Z) (y : list Z) : Z :=
  Z.of_nat (length (filter (fun w => w = v) y)).

(** [np.unique(y, return_counts=True)]: the distinct values of [y] in
    increasing order, and the number of occurrences of each. *)
Definition np_unique (y : list Z) : list Z * list Z :=
  let uv := foldr insert_unique [] y in
  (uv, map (fun v => count v y) uv).

(** [np.where(mask)[0]]: the positions at which [mask] holds, increasing. *)
Fixpoint np_where_from (i : nat) (mask : list bool) : list nat :=
  match mask with
  | [] => []
  | b :: mask' =>
      if b then i :: np_where_from (S i) mask' else np_where_from (S i) mask'
  end.

Definition np_where (mask : list bool) : list nat := np_where_from 0 mask.

(** ** [sample_data] *)

(** The members of [alphapy.globals.SamplingMethod] that [sample_data]
    names. *)
Inductive SamplingMethod : Type :=
| under_random | under_tomek | under_cluster | under_nearmiss | under_ncr
| over_random | over_smote | over_smoteb | over_smotesv
| overunder_smote_tomek | overunder_smote_enn
| ensemble_easy | ensemble_bc.

(** The configured [sampling_method]: one of the members above, or any other
    value, kept by its [str()]. *)
Inductive method : Type :=
| Member (m : SamplingMethod)
| Other (str : string).

Inductive smote_kind : Type := regular | borderline1 | svm.

(** The imbalanced-learn sampler objects, with the arguments the code
    passes to their constructors. *)
Inductive sampler : Type :=
| RandomUnderSampler
| TomekLinks
| ClusterCentroids
| NearMiss (version : Z)
| NeighbourhoodCleaningRule (size_ngh : Z)
| RandomOverSampler (ratio : npfloat)
| SMOTE (ratio : npfloat) (kind : smote_kind)
| SMOTETomek (ratio : npfloat)
| SMOTEENN (ratio : npfloat)
| EasyEnsemble
| BalanceCascade.

Record Specs : Type := {
  sampling_method : method;
  sampling_ratio : Q;
  target : string;
  target_value : Z
}.

Section Sampling.

(** The feature matrix is opaque to [sample_data]. *)
Variable Matrix : Type.

Record Model : Type := {
  specs : Specs;
  X_train : Matrix;
  y_train : list Z
}.

(** [sampler.fit_sample(X, y)], which belongs to imbalanced-learn. *)
Variable fit_sample : sampler -> Matrix -> list Z -> result (Matrix * list Z).

(** Lines 229-235: the configured ratio when it is positive, otherwise the
    ratio of the counts of the first non-target and of the target value. *)
Definition calculate_ratio (sampling_ratio : Q) (y_train : list Z)
    (target_value : Z) : result npfloat :=
  if Qlt_le_dec 0 sampling_ratio then ok (Finite sampling_ratio)
  else
    let '(uv, uc) := np_unique y_train in
    let* target_index :=
      getitem (np_where (map (fun v => bool_decide (v = target_value)) uv)) 0 in
    let* nontarget_index :=
      getitem (np_where (map (fun v => bool_decide (v <> target_value)) uv)) 0 in
    let* c_nontarget := getitem uc nontarget_index in
    let* c_target := getitem uc target_index in
    ok (np_sub (np_true_divide c_nontarget c_target) 1).

(** Lines 241-268: the chain of comparisons with the enumeration members. *)
Definition choose_sampler (sampling_method : method) (ratio : npfloat)
    : result sampler :=
  match sampling_method with
  | Member under_random => ok RandomUnderSampler
  | Member under_tomek => ok TomekLinks
  | Member under_cluster => ok ClusterCentroids
  | Member under_nearmiss => ok (NearMiss 1)
  | Member under_ncr => ok (NeighbourhoodCleaningRule 51)
  | Member over_random => ok (RandomOverSampler ratio)
  | Member over_smote => ok (SMOTE ratio regular)
  | Member over_smoteb => ok (SMOTE ratio borderline1)
  | Member over_smotesv => ok (SMOTE ratio svm)
  | Member overunder_smote_tomek => ok (SMOTETomek ratio)
  | Member overunder_smote_enn => ok (SMOTEENN ratio)
  | Member ensemble_easy => ok EasyEnsemble
  | Member ensemble_bc => ok BalanceCascade
  | Other str => raise (ValueError ("Unknown Sampling Method " +:+ str))
  end.

(** [sample_data(model)].  The logging calls have no effect on the result
    and are left out. *)
Definition sample_data (model : Model) : result Model :=
  let sampling_method := sampling_method (specs model) in
  let sampling_ratio := sampling_ratio (specs model) in
  let target_value := target_value (specs model) in
  let X_train := X_train model in
  let y_train := y_train model in
  let* ratio := calculate_ratio sampling_ratio y_train target_value in
  let* sampler := choose_sampler sampling_method ratio in
  let* Xy := fit_sample sampler X_train y_train in
  ok {| specs := specs model; X_train := fst Xy; y_train := snd Xy |}.

End Sampling.

Arguments specs {Matrix} _.
Arguments X_train {Matrix} _.
Arguments y_train {Matrix} _.
Arguments sample_data {Matrix} _ _.

(** ** [get_google_data] *)

(** [re.findall('\d+', s)]: the maximal runs of decimal digits of [s], left
    to right; [run] is the run being read. *)
Fixpoint findall_digits (run : option string) (s : string) : list string :=
  match s with
  | EmptyString =>
      match run with Some r => [r] | None => [] end
  | String c s' =>
      match digit_val c, run with
      | Some _, Some r => findall_digits (Some (r +:+ String c EmptyString)) s'
      | Some _, None => findall_digits (Some (String c EmptyString)) s'
      | None, Some r => r :: findall_digits None s'
      | None, None => findall_digits None s'
      end
  end.

(** The request: the three values substituted into [base_url]. *)
Record Url : Type := {
  url_q : string;
  url_i : Z;
  url_p : Z
}.

(** One element of [records]: the tuple of line 348. *)
Record Record_ : Type := {
  r_datetime : Q;
  r_date : string;
  r_open : string;
  r_high : string;
  r_low : string;
  r_close : string;
  r_volume : string
}.

(** The frame that [get_google_data] returns, column by column: the index
    (the former [datetime] column) and the seven remaining columns. *)
Record DataFrame : Type := {
  df_index : list Q;
  df_open : list Q;
  df_high : list Q;
  df_low : list Q;
  df_close : list Q;
  df_volume : list Z;
  df_bar_number : list Z;
  df_end_of_day : list bool
}.

(** The column labels through lines 351-366: the seven of [cols], the two
    added columns, less [date] and [datetime]. *)
Definition cols : list string :=
  ["datetime"; "date"; "open"; "high"; "low"; "close"; "volume"].

Definition del_column (name : string) (columns : list string) : list string :=
  filter (fun c => c <> name) columns.

Definition google_columns : list string :=
  del_column "datetime"
    (del_column "date" ((cols ++ ["bar_number"]) ++ ["end_of_day"])).

(** [groupby(key).cumcount()]: for each row, the number of earlier rows
    with the same key; [seen] holds the keys of the earlier rows. *)
Fixpoint cumcount (seen keys : list string) : list Z :=
  match keys with
  | [] => []
  | k :: ks =>
      Z.of_nat (length (filter (fun k' => k' = k) seen)) :: cumcount (k :: seen) ks
  end.

(** [groupby(key).tail(1).index] over the default index [0 .. n-1]: the
    positions of the rows that no later row shares its key with. *)
Fixpoint tail1_index (i : nat) (keys : list string) : list nat :=
  match keys with
  | [] => []
  | k :: ks =>
      if bool_decide (k ∈ ks) then tail1_index (S i) ks
      else i :: tail1_index (S i) ks
  end.

(** [df.loc[index, column] = v] on one column. *)
Definition loc_set {A} (index : list nat) (v : A) (column : list A) : list A :=
  foldr (fun i col => <[i := v]> col) column index.

Section Google.

(** [dt.strftime('%Y-%m-%d')] of [datetime.fromtimestamp(t)]: the calendar
    date of the epoch second [t] in the local time zone. *)
Variable strftime_date : Q -> string.

(** [requests.get(url).text]. *)
Variable requests_get : Url -> string.

(** The body of the loop of lines 331-349 on one line: the new binding of
    [day_item] ([None] while it is unbound) and the record appended, if
    any.  A timestamp is kept as its epoch seconds; the range that
    [datetime.fromtimestamp] accepts depends on the platform and is not
    modelled, nor is its rounding to the microsecond: statements that
    assert a row carry [plain_timestamp] or [plain_stream]. *)
Definition parse_line (interval : Z) (day_item : option Q) (line : string)
    : result (option Q * option Record_) :=
  match split "," line with
  | [dt_item; close_item; high_item; low_item; open_item; volume_item] =>
      let* st :=
        match dt_item with
        | EmptyString => raise IndexError
        | String c rest =>
            if Ascii.eqb c "a" then
              let* d := float rest in ok (Some d, 0%Q)
            else
              let* o := float dt_item in ok (day_item, o)
        end in
      let '(day_item', offset) := st in
      match day_item' with
      | None => raise (UnboundLocalError "day_item")
      | Some day =>
          let dt := (day + inject_Z interval * offset)%Q in
          let dt_date := strftime_date dt in
          ok (day_item',
              Some {| r_datetime := dt; r_date := dt_date;
                      r_open := open_item; r_high := high_item;
                      r_low := low_item; r_close := close_item;
                      r_volume := volume_item |})
      end
  | _ => ok (day_item, None)
  end.

(** The loop of lines 331-349, appending to [records]. *)
Fixpoint parse_lines (interval : Z) (day_item : option Q)
    (records : list Record_) (text : list string) : result (list Record_) :=
  match text with
  | [] => ok records
  | line :: text' =>
      let* st := parse_line interval day_item line in
      match snd st with
      | Some record => parse_lines interval (fst st) (records ++ [record]) text'
      | None => parse_lines interval (fst st) records text'
      end
  end.

(** Lines 351-366: typing of the columns, bar numbers and end-of-day
    marks.  [astype] converts a whole column and raises on its first
    unparsable cell; the float columns go first, in the order of
    [cols_float].  A volume is kept as an integer of any size: the
    overflow of a 64-bit integer is not modelled, and statements that
    assert a table carry [volume_fits] or [volume_typed]. *)
Definition make_frame (records : list Record_) : result DataFrame :=
  let* opens := mapM float (map r_open records) in
  let* highs := mapM float (map r_high records) in
  let* lows := mapM float (map r_low records) in
  let* closes := mapM float (map r_close records) in
  let* volumes := mapM int (map r_volume records) in
  let dates := map r_date records in
  let bar_number := cumcount [] dates in
  let end_of_day :=
    loc_set (tail1_index 0 dates) true (replicate (length records) false) in
  ok {| df_index := map r_datetime records;
        df_open := opens; df_high := highs; df_low := lows;
        df_close := closes; df_volume := volumes;
        df_bar_number := bar_number; df_end_of_day := end_of_day |}.

Definition get_google_data (symbol : string) (lookback_period : Z)
    (fractal : string) : result DataFrame :=
  let symbol := upper symbol in
  let* digits := getitem (findall_digits None fractal) 0 in
  let* minutes := int digits in
  let interval := 60 * minutes in
  let max_days := 50 in
  let lookback_period :=
    if lookback_period >? max_days then max_days else lookback_period in
  let toffset := 7%nat in
  let url := {| url_q := symbol; url_i := interval; url_p := lookback_period |} in
  let text := split "010" (requests_get url) in
  let* records := parse_lines interval None [] (drop toffset text) in
  make_frame records.

End Google.

(** ** [get_yahoo_data] *)

(** A frame of the daily reader: a named index of dates (epoch seconds) and
    named numeric columns. *)
Record DailyFrame : Type := {
  index_name : string;
  index : list Q;
  columns : list (string * list Q)
}.

(** [x.lower().replace(' ', '')], the renaming of line 405. *)
Fixpoint remove_spaces (s : string) : string :=
  match s with
  | EmptyString => EmptyString
  | String c s' =>
      if Ascii.eqb c " " then remove_spaces s' else String c (remove_spaces s')
  end.

Definition rename_column (x : string) : string := remove_spaces (lower x).

Section Yahoo.

(** The two readings of [datetime.now()], in epoch seconds. *)
Variable now_start now_end : Q.

(** [web.DataReader(symbol, source, start, end)]. *)
Variable DataReader : string -> string -> Q -> Q -> result DailyFrame.

(** [timedelta(days)] in seconds. *)
Definition timedelta (days : Z) : Q := inject_Z (86400 * days).

(** [get_yahoo_data(symbol, lookback_period)].  With rows, the index
    becomes a column under its own name, the labels are renamed, and the
    column then called [date] becomes the index again under the name
    [datetime]; without such a column [df['date']] is a [KeyError].  The
    index is taken to become a column without a clash of labels, and the
    frame to have at most one [date] and no [datetime] after renaming:
    statements about the result carry these as hypotheses. *)
Definition get_yahoo_data (symbol : string) (lookback_period : Z)
    : result DailyFrame :=
  let start := (now_start - timedelta lookback_period)%Q in
  let end_ := now_end in
  let* df := DataReader symbol "yahoo" start end_ in
  if (0 <? length (index df))%nat then
    let reset := (index_name df, index df) :: columns df in
    let renamed := map (fun c => (rename_column (fst c), snd c)) reset in
    match list_find (fun c => fst c = "date") renamed with
    | Some (_, (_, dates)) =>
        ok {| index_name := "datetime";
              index := dates;
              columns := filter (fun c => fst c <> "date") renamed |}
    | None => raise (KeyError "date")
    end
  else ok df.

End Yahoo.

(** ** [get_feed_data] *)

Record Space : Type := { fractal : string }.

Record Group : Type := {
  space : Space;
  members : list string
}.

(** What a registered frame holds: an intraday or a daily table. *)
Inductive table : Type :=
| Intraday (df : DataFrame)
| Daily (df : DailyFrame).

(** [len(df)]. *)
Definition len (df : table) : nat :=
  match df with
  | Intraday d => length (df_index d)
  | Daily d => length (index d)
  end.

(** The messages of [get_feed_data], with their arguments. *)
Inductive log_record : Type :=
| info_daily
| info_intraday
| info_getting (item : string) (lookback_period : Z)
| info_could_not_get (item : string)
| error_could_not_allocate (item : string).

(** The state outside [get_feed_data]: the frames allocated so far, by
    name, and the log. *)
Record World : Type := {
  frames : gmap string table;
  log : list log_record
}.

Definition logger (r : log_record) (w : World) : World :=
  {| frames := frames w; log := log w ++ [r] |}.

(** Modelled from the spec: the class [Frame] of [alphapy.frame], the
    named-table store [register(name, table)] keyed by the lower-cased symbol;
    allocating a frame records the table under the name given, replacing an
    earlier one of that name, and returns the new object (never [None]). *)
Definition Frame (name : string) (gspace : Space) (df : table) (w : World)
    : World :=
  {| frames := <[name := df]> (frames w); log := log w |}.

Definition empty_world : World := {| frames := ∅; log := [] |}.

Section Feed.

Variable strftime_date : Q -> string.
Variable requests_get : Url -> string.
Variable now_start now_end : Q.
Variable DataReader : string -> string -> Q -> Q -> result DailyFrame.

(** Lines 449-452: the frame of one item from the feed selected. *)
Definition feed_item (daily_data : bool) (gspace : Space)
    (lookback_period : Z) (item : string) : result table :=
  if daily_data then
    let* df := get_yahoo_data now_start now_end DataReader item lookback_period in
    ok (Daily df)
  else
    let* df := get_google_data strftime_date requests_get item
                 lookback_period (fractal gspace) in
    ok (Intraday df).

(** The loop of lines 447-459.  An exception raised for one item leaves
    the loop at once, with the world as it is at that point. *)
Fixpoint feed_loop (daily_data : bool) (gspace : Space) (lookback_period : Z)
    (items : list string) (w : World) : result unit * World :=
  match items with
  | [] => (ok tt, w)
  | item :: items' =>
      let w := logger (info_getting item lookback_period) w in
      match feed_item daily_data gspace lookback_period item with
      | inl e => (raise e, w)
      | inr df =>
          let w :=
            if (0 <? len df)%nat then Frame (lower item) gspace df w
            else logger (info_could_not_get item) w in
          feed_loop daily_data gspace lookback_period items' w
      end
  end.

(** [get_feed_data(group, lookback_period)]: the value returned or the
    exception raised, and the world afterwards. *)
Definition get_feed_data (group : Group) (lookback_period : Z) (w : World)
    : result bool * World :=
  let gspace := space group in
  let fractal := fractal gspace in
  let daily_data := contains "d" fractal in
  let w := logger (if daily_data then info_daily else info_intraday) w in
  let '(r, w) := feed_loop daily_data gspace lookback_period (members group) w in
  (let* _ := r in ok daily_data, w).

(** The specification's account of the loop over symbols that all yield a
    table: the tables registered, under the lower-cased symbol when
    non-empty and not at all when empty, ... *)
Definition registered (daily_data : bool) (gspace : Space)
    (lookback_period : Z) (items : list string) (store : gmap string table)
    : gmap string table :=
  foldl (λ store item,
           match feed_item daily_data gspace lookback_period item with
           | inr df => if (0 <? len df)%nat then <[lower item := df]> store
                       else store
           | inl _ => store
           end) store items.

(** ... and the messages logged, symbol by symbol in the declared order. *)
Definition logged (daily_data : bool) (gspace : Space)
    (lookback_period : Z) (items : list string) : list log_record :=
  flat_map (λ item,
              info_getting item lookback_period ::
              match feed_item daily_data gspace lookback_period item with
              | inr df => if (0 <? len df)%nat then []
                          else [info_could_not_get item]
              | inl _ => []
              end) items.

End Feed.

(** ** [shuffle_data] *)

(** [a[indices]] for an array of non-negative positions: the rows of [a] at
    these positions, in their order; a position past the end is an
    [IndexError]. *)
Definition take_rows {A} (a : list A) (indices : list nat) : result (list A) :=
  mapM (getitem a) indices.

Section Shuffling.

Variable Row : Type.

(** [np.random.seed(seed)] followed by [np.random.permutation(n)]. *)
Variable permutation : Z -> nat -> list nat.

(** [shuffle_data(model)]: whether the call returns, and the model object
    afterwards.  [X_train] and [y_train] are arrays, indexed by row.  The
    keys [seed] and [shuffle] of [model.specs], which the record [Specs]
    does not carry, are arguments.  The features are
    assigned before the labels are indexed, so an exception of the second
    subscript would leave the new features in place. *)
Definition shuffle_data (seed : Z) (shuffle : bool) (model : Model (list Row))
    : result unit * Model (list Row) :=
  let X_train := X_train model in
  let y_train := y_train model in
  if shuffle then
    let new_indices := permutation seed (length y_train) in
    match take_rows X_train new_indices with
    | inl e => (raise e, model)
    | inr X =>
        let model := {| specs := specs model; X_train := X;
                        y_train := y_train |} in
        match take_rows y_train new_indices with
        | inl e => (raise e, model)
        | inr y =>
            (ok tt, {| specs := specs model; X_train := X; y_train := y |})
        end
    end
  else (ok tt, model).

End Shuffling.

Arguments shuffle_data {Row} _ _ _ _.

(** ** [get_data] *)

(** A cell of a frame read from a file. *)
Inductive cell : Type :=
| NaN_cell
| Num (q : Q)
| Str (s : string).

Definition isnull (c : cell) : bool :=
  match c with NaN_cell => true | _ => false end.

(** A frame as its columns, in order, each with its label. *)
Definition Columns : Type := list (string * list cell).

(** [model.specs['model_type']]: only the comparison with
    [ModelType.classification] matters. *)
Inductive ModelType : Type :=
| classification
| other_model_type.

(** [model.specs['features']]: the wildcard or a list of labels. *)
Inductive Features : Type :=
| WILDCARD
| feature_list (names : list string).

Module Load.

(** The keys of [model.specs] that [get_data] reads. *)
Record Specs : Type := {
  directory : string;
  extension : string;
  features : Features;
  model_type : ModelType;
  separator : string;
  target : string
}.

End Load.

(** The columns labelled [name]. *)
Definition labelled (name : string) (df : Columns) : Columns :=
  filter (fun c => fst c = name) df.

(** [df.drop([name], axis=1)] for a label that is present. *)
Definition drop_label (name : string) (df : Columns) : Columns :=
  filter (fun c => fst c <> name) df.

(** [df[names]] for a list of labels: the columns carrying each label, in
    the order of the list; a label that no column carries is a [KeyError]
    (of which the first missing label is kept). *)
Fixpoint select (names : list string) (df : Columns) : result Columns :=
  match names with
  | [] => ok []
  | name :: names' =>
      match labelled name df with
      | [] => raise (KeyError name)
      | cs => let* rest := select names' df in ok (cs ++ rest)
      end
  end.

Section GetData.

(** The members of [alphapy.globals.Partition]. *)
Variable Partition : Type.

(** The table [datasets] and the separator [SSEP] of [alphapy.globals]. *)
Variable datasets : Partition -> string.
Variable SSEP : string.

(** [read_frame(directory, filename, extension, separator)] of
    [alphapy.frame]. *)
Variable read_frame : string -> string -> string -> string -> Columns.

(** [LabelEncoder().fit_transform(y)] of scikit-learn. *)
Variable fit_transform : list cell -> list cell.

(** [get_data(model, partition)]: the features [X] and the labels [y], the
    latter empty when they are not used.  With several columns labelled as
    the target, [nan_count] is a series and its truth value a
    [ValueError].  The logging calls are left out. *)
Definition get_data (specs : Load.Specs) (partition : Partition)
    : result (Columns * list cell) :=
  let filename := datasets partition in
  let input_dir := Load.directory specs +:+ SSEP +:+ "input" in
  let df := read_frame input_dir filename (Load.extension specs)
              (Load.separator specs) in
  let target := Load.target specs in
  let* dfy :=
    match labelled target df with
    | [] => ok (df, [])
    | [(_, values)] =>
        let nan_count := length (filter (fun c => isnull c = true) values) in
        let y :=
          if (0 <? nan_count)%nat then []
          else
            match Load.model_type specs with
            | classification => fit_transform values
            | other_model_type => values
            end in
        ok (drop_label target df, y)
    | _ =>
        raise (ValueError
          "The truth value of a Series is ambiguous. Use a.empty, a.bool(), a.item(), a.any() or a.all().")
    end in
  let* X :=
    match Load.features specs with
    | WILDCARD => ok (fst dfy)
    | feature_list names => select names (fst dfy)
    end in
  ok (X, snd dfy).

End GetData.

Arguments get_data {Partition} _ _ _ _ _ _.

(** ** A time zone for the examples: UTC *)

(** The civil date of a day number counted from 1970-01-01. *)
Definition civil_from_days (z : Z) : Z * Z * Z :=
  let z := z + 719468 in
  let era := z / 146097 in
  let doe := z - era * 146097 in
  let yoe := (doe - doe / 1460 + doe / 36524 - doe / 146096) / 365 in
  let doy := doe - (365 * yoe + yoe / 4 - yoe / 100) in
  let mp := (5 * doy + 2) / 153 in
  let d := doy - (153 * mp + 2) / 5 + 1 in
  let m := if mp <? 10 then mp + 3 else mp - 9 in
  let y := yoe + era * 400 + (if m <=? 2 then 1 else 0) in
  (y, m, d).

Definition digit_char (d : Z) : ascii := ascii_of_N (Z.to_N (48 + d mod 10)).

Definition pad2 (n : Z) : string :=
  String (digit_char (n / 10)) (String (digit_char n) EmptyString).

Definition pad4 (n : Z) : string := pad2 (n / 100) +:+ pad2 n.

(** [strftime('%Y-%m-%d')] for a clock set to UTC. *)
Definition utc_date (t : Q) : string :=
  let '(y, m, d) := civil_from_days (Qfloor t / 86400) in
  pad4 y +:+ "-" +:+ pad2 m +:+ "-" +:+ pad2 d.

(** ** Vocabulary of the statements about the feed *)

(** What the loop body makes of the time marker of a line: the line is
    skipped (not six fields), carries an anchor with its day base, carries
    an offset, or makes the marker decoding raise. *)
Inductive line_kind : Type :=
| Skipped
| Anchor (day_base : Q)
| Offset (offset : Q)
| Invalid (e : exn).

Definition classify (line : string) : line_kind :=
  match split "," line with
  | [dt_item; _; _; _; _; _] =>
      match dt_item with
      | EmptyString => Invalid IndexError
      | String c rest =>
          if Ascii.eqb c "a" then
            match float rest with
            | inr d => Anchor d
            | inl e => Invalid e
            end
          else
            match float dt_item with
            | inr o => Offset o
            | inl e => Invalid e
            end
      end
  | _ => Skipped
  end.

(** The five value fields of a six-field line can be typed: the first four
    as floats, the last as an integer. *)
Definition numeric_fields (line : string) : bool :=
  match split "," line with
  | [_; close_item; high_item; low_item; open_item; volume_item] =>
      is_ok (float close_item) && is_ok (float high_item) &&
      is_ok (float low_item) && is_ok (float open_item) &&
      is_ok (int volume_item)
  | _ => false
  end.

(** A record whose five value fields can be typed. *)
Definition typable (r : Record_) : bool :=
  is_ok (float (r_open r)) && is_ok (float (r_high r)) &&
  is_ok (float (r_low r)) && is_ok (float (r_close r)) &&
  is_ok (int (r_volume r)).

(** A well-formed stream: every line has six fields with a decodable marker
    and typable values, and no offset line comes before the first anchor
    ([based] tells whether an anchor has been seen). *)
Fixpoint well_formed (based : bool) (text : list string) : bool :=
  match text with
  | [] => true
  | line :: text' =>
      numeric_fields line &&
      match classify line with
      | Anchor _ => well_formed true text'
      | Offset _ => based && well_formed based text'
      | _ => false
      end
  end.

(** A line that is skipped, or an offset line: it leaves the day base as it
    is. *)
Definition keeps_base (line : string) : bool :=
  match classify line with
  | Skipped | Offset _ => true
  | _ => false
  end.

(** The record made of the six fields [items] of a line, stamped [dt]. *)
Definition record_of (strftime_date : Q → string) (dt : Q)
    (items : list string) : Record_ :=
  {| r_datetime := dt; r_date := strftime_date dt;
     r_open := default "" (items !! 4%nat);
     r_high := default "" (items !! 2%nat);
     r_low := default "" (items !! 3%nat);
     r_close := default "" (items !! 1%nat);
     r_volume := default "" (items !! 5%nat) |}.

(** The data lines of the response to the request that [get_google_data]
    makes for an interval of [interval] seconds. *)
Definition data_lines (requests_get : Url → string) (symbol : string)
    (lookback_period interval : Z) : list string :=
  drop 7 (split "010"
    (requests_get {| url_q := upper symbol; url_i := interval;
                     url_p := if lookback_period >? 50 then 50
                              else lookback_period |})).

(** The frame that [get_data] reads for a partition. *)
Definition input_frame {Partition : Type} (datasets : Partition → string)
    (SSEP : string) (read_frame : string → string → string → string → Columns)
    (specs : Load.Specs) (partition : Partition) : Columns :=
  read_frame (Load.directory specs +:+ SSEP +:+ "input") (datasets partition)
    (Load.extension specs) (Load.separator specs).

(** A frame whose columns all have [n] rows. *)
Definition rectangular (n : nat) (df : Columns) : Prop :=
  Forall (λ c, length c.2 = n) df.

(** Whether a string consists of decimal digits only, and whether it has
    one at all. *)
Fixpoint all_digits (s : string) : bool :=
  match s with
  | EmptyString => true
  | String c s' => bool_decide (is_Some (digit_val c)) && all_digits s'
  end.

Fixpoint has_digit (s : string) : bool :=
  match s with
  | EmptyString => false
  | String c s' => bool_decide (is_Some (digit_val c)) || has_digit s'
  end.

(** The table without rows. *)
Definition empty_frame : DataFrame :=
  {| df_index := []; df_open := []; df_high := []; df_low := [];
     df_close := []; df_volume := []; df_bar_number := [];
     df_end_of_day := [] |}.

(** ** The inputs on which the exact model and the interpreter agree *)

(** A float that is a whole number. *)
Definition whole (q : Q) : bool := Qeq_bool q (inject_Z (Qfloor q)).

(** A day base and an offset whose timestamp the code computes exactly and
    that [datetime.fromtimestamp] accepts on every platform: whole,
    non-negative numbers, an interval that a double holds, and a timestamp
    from one day after the epoch to the last second of a 32-bit clock. *)
Definition plain_timestamp (interval : Z) (day_base offset : Q) : bool :=
  (0 <=? interval) && (interval <=? 2147483647) &&
  whole day_base && whole offset &&
  Qle_bool 0 day_base && Qle_bool 0 offset && Qle_bool offset 2147483647 &&
  Qle_bool 86400 (day_base + inject_Z interval * offset) &&
  Qle_bool (day_base + inject_Z interval * offset) 2147483647.

(** A stream all of whose six-field lines have a marker that [float]
    parses and a plain timestamp, no offset line coming before an anchor;
    [day] is the day base in force. *)
Fixpoint plain_stream (interval : Z) (day : option Q) (text : list string)
    : bool :=
  match text with
  | [] => true
  | line :: text' =>
      match classify line with
      | Skipped => plain_stream interval day text'
      | Anchor b =>
          plain_timestamp interval b 0 && plain_stream interval (Some b) text'
      | Offset o =>
          match day with
          | Some d =>
              plain_timestamp interval d o && plain_stream interval day text'
          | None => false
          end
      | Invalid _ => false
      end
  end.

(** A six-field line whose volume is an integer literal within [int64]
    (any other line passes). *)
Definition volume_fits (line : string) : bool :=
  match split "," line with
  | [_; _; _; _; _; volume_item] =>
      match int volume_item with
      | inr v => (- 2 ^ 63 <=? v) && (v <? 2 ^ 63)
      | inl _ => false
      end
  | _ => true
  end.







(** ** Concrete inputs for the examples *)

(** A sampler stub that hands the training set back unchanged, over a
    feature matrix without content. *)
Definition keep_all (s : sampler) (X : unit) (y : list Z)
    : result (unit * list Z) := ok (X, y).

Definition model_of (m : method) (r : Q) (y : list Z) (t : Z) : Model unit :=
  {| specs := {| sampling_method := m; sampling_ratio := r;
                 target := "y"; target_value := t |};
     X_train := tt; y_train := y |}.

(** A response of the intraday feed: the seven lines of preamble, then the
    data lines, separated by line feeds. *)
Definition preamble : list string :=
  ["EXCHANGE%3DNASDAQ"; "MARKET_OPEN_MINUTE=570"; "MARKET_CLOSE_MINUTE=960";
   "INTERVAL=300"; "COLUMNS=DATE,CLOSE,HIGH,LOW,OPEN,VOLUME"; "DATA=";
   "TIMEZONE_OFFSET=0"].

Fixpoint unlines (lines : list string) : string :=
  match lines with
  | [] => EmptyString
  | [line] => line
  | line :: lines' => line +:+ String "010" (unlines lines')
  end.

Definition response_of (lines : list string) : string :=
  unlines (preamble ++ lines).

Definition feed_three : list string :=
  ["a1609459200,10,12,9,11,1000"; "1,10.5,12.5,9.5,11.5,2000";
   "2,10.7,12.7,9.7,11.7,1500"].

Definition feed_malformed : list string :=
  ["a1609459200,10,12,9,11,1000"; "1,10.5,12.5,9.5,11.5";
   "2,10.7,12.7,9.7,11.7,1500"].

Definition feed_unanchored : list string :=
  ["60,10.5,12.5,9.5,11.5,2000"; "a1609459200,10,12,9,11,1000"].

Definition feed_unparsable : list string :=
  ["a1609459200,10,12,9,N/A,1000"].

(** A backend that answers every request with the same lines. *)
Definition serve (lines : list string) (url : Url) : string :=
  response_of lines.

(** A backend that has no data lines for the symbol [AAA] and three rows
    for any other. *)
Definition quiet_then_three (url : Url) : string :=
  if bool_decide (url_q url = "AAA") then response_of []
  else response_of feed_three.

(** A backend whose lines for [AAA] carry an unparsable number. *)
Definition corrupt_then_three (url : Url) : string :=
  if bool_decide (url_q url = "AAA") then response_of feed_unparsable
  else response_of feed_three.

(** A daily reader without rows. *)
Definition no_rows (symbol source : string) (start end_ : Q)
    : result DailyFrame :=
  ok {| index_name := "Date"; index := []; columns := [] |}.

Definition two_symbols : Group :=
  {| space := {| fractal := "5m" |}; members := ["AAA"; "BBB"] |}.

(** A permutation for the examples: the positions in decreasing order. *)
Definition backwards (seed : Z) (n : nat) : list nat := reverse (seq 0 n).

Definition rows_model (X : list (list Q)) (y : list Z) : Model (list (list Q)) :=
  {| specs := {| sampling_method := Member over_random; sampling_ratio := 0;
                 target := "y"; target_value := 1 |};
     X_train := X; y_train := y |}.

(** A training file with two features and the target [y], and a test file
    whose target is not known everywhere. *)
Definition train_frame : Columns :=
  [("a", [Num 1; Num 2; Num 3]); ("y", [Num 0; Num 1; Num 0]);
   ("b", [Str "u"; Str "v"; Str "w"])].

Definition test_frame : Columns :=
  [("a", [Num 4; Num 5]); ("y", [Num 1; NaN_cell]); ("b", [Str "u"; Str "v"])].

Definition files (directory filename extension separator : string) : Columns :=
  if bool_decide (filename = "train") then train_frame else test_frame.

(** The two partitions of the examples: [true] for training. *)
Definition file_of (partition : bool) : string :=
  if partition then "train" else "test".

Definition load_specs (f : Features) (m : ModelType) : Load.Specs :=
  {| Load.directory := "."; Load.extension := "csv"; Load.features := f;
     Load.model_type := m; Load.separator := ","; Load.target := "y" |}.

(** An encoder stub: every label becomes the number 0. *)
Definition flat_encoder (y : list cell) : list cell := map (λ _, Num 0) y.

(** Two frames of a daily reader: one as Yahoo delivers it, one whose
    index has another name. *)
Definition yahoo_frame : DailyFrame :=
  {| index_name := "Date";
     index := [1609459200%Q; 1609545600%Q];
     columns := [("Open", [10%Q; 11%Q]); ("Adj Close", [10.5%Q; 11.5%Q]);
                 ("Volume", [1000%Q; 2000%Q])] |}.

Definition yahoo_reader (symbol source : string) (start end_ : Q)
    : result DailyFrame := ok yahoo_frame.


Definition daily_symbols : Group :=
  {| space := {| fractal := "1d" |}; members := ["AAA"; "BBB"] |}.


(** * Properties *)

(** ** The unique values and the first position of a mask *)

Lemma elem_of_insert_unique (x v : Z) (l : list Z) :
  v ∈ insert_unique x l ↔ v = x ∨ v ∈ l.
Proof.
  induction l as [|y l IH]; simpl.
  - rewrite list_elem_of_singleton, elem_of_nil. tauto.
  - destruct (Z.ltb_spec x y) as [Hlt|Hge].
    + rewrite !elem_of_cons. tauto.
    + destruct (Z.eqb_spec x y) as [->|Hne].
      * rewrite !elem_of_cons. tauto.
      * rewrite !elem_of_cons, IH. tauto.
Qed.

Lemma elem_of_unique_values (y : list Z) (v : Z) :
  v ∈ (np_unique y).1 ↔ v ∈ y.
Proof.
  unfold np_unique; simpl.
  induction y as [|x y IH]; simpl.
  - reflexivity.
  - rewrite elem_of_insert_unique, IH, elem_of_cons. reflexivity.
Qed.

Lemma insert_unique_sorted (x : Z) (l : list Z) :
  StronglySorted Z.lt l → StronglySorted Z.lt (insert_unique x l).
Proof.
  induction 1 as [|y l Hs IH Hall]; simpl.
  - repeat constructor.
  - destruct (Z.ltb_spec x y) as [Hlt|Hge].
    + constructor; [by constructor|].
      constructor; [done|].
      eapply Forall_impl; [exact Hall|]. intros; simpl in *; lia.
    + destruct (Z.eqb_spec x y) as [->|Hne]; [by constructor|].
      constructor; [done|].
      apply Forall_forall. intros v Hv.
      apply elem_of_insert_unique in Hv as [->|Hv]; [lia|].
      rewrite Forall_forall in Hall. by apply Hall.
Qed.

Lemma unique_values_sorted (y : list Z) : StronglySorted Z.lt (np_unique y).1.
Proof.
  unfold np_unique; simpl.
  induction y as [|x y IH]; simpl; [constructor|].
  by apply insert_unique_sorted.
Qed.

Lemma sorted_lookup_le (l : list Z) (i j : nat) (a b : Z) :
  StronglySorted Z.lt l → (i ≤ j)%nat → l !! i = Some a → l !! j = Some b → a ≤ b.
Proof.
  intros Hs. revert i j.
  induction Hs as [|x l Hs IH Hall]; intros i j Hij Hi Hj; [done|].
  destruct i as [|i], j as [|j]; simpl in *; simplify_eq; try lia.
  - rewrite Forall_forall in Hall.
    apply list_elem_of_lookup_2 in Hj. specialize (Hall _ Hj). lia.
  - eapply IH; [|done..]. lia.
Qed.

Lemma unique_counts_lookup (y : list Z) (i : nat) (v : Z) :
  (np_unique y).1 !! i = Some v → (np_unique y).2 !! i = Some (count v y).
Proof.
  unfold np_unique; simpl.
  generalize (foldr insert_unique [] y) as uv.
  intros uv; revert i; induction uv as [|u uv IH]; intros [|i] H;
    simpl in *; simplify_eq; auto.
Qed.

(** The first position recorded by [np_where] is the first position at
    which the mask holds; there is none exactly when it holds nowhere. *)
Lemma np_where_from_head (k : nat) (mask : list bool) :
  match np_where_from k mask !! 0%nat with
  | Some i =>
      ∃ j, i = (k + j)%nat ∧ mask !! j = Some true ∧
           ∀ j', (j' < j)%nat → mask !! j' = Some false
  | None => ∀ j, mask !! j ≠ Some true
  end.
Proof.
  revert k; induction mask as [|b mask IH]; intros k; simpl.
  - intros j; by rewrite lookup_nil.
  - destruct b; simpl.
    + exists 0%nat. split; [lia|]. split; [done|]. intros; lia.
    + specialize (IH (S k)).
      destruct (np_where_from (S k) mask !! 0%nat) as [i|].
      * destruct IH as (j & -> & Hj & Hbefore).
        exists (S j). split; [lia|]. split; [done|].
        intros [|j'] ?; simpl; [done|]. apply Hbefore; lia.
      * intros [|j]; simpl; [done|]. apply IH.
Qed.

Lemma getitem_where_first {A} (p : A → bool) (l : list A) :
  match getitem (np_where (map p l)) 0 with
  | inr i =>
      ∃ a, l !! i = Some a ∧ p a = true ∧
           ∀ j b, (j < i)%nat → l !! j = Some b → p b = false
  | inl e => e = IndexError ∧ ∀ a, a ∈ l → p a = false
  end.
Proof.
  unfold getitem, np_where.
  pose proof (np_where_from_head 0 (map p l)) as H.
  assert (Hmap : ∀ j, map p l !! j = p <$> (l !! j)).
  { clear. induction l as [|a l IH]; intros [|j]; simpl; auto. }
  destruct (np_where_from 0 (map p l) !! 0%nat) as [i|]; simpl.
  - destruct H as (j & -> & Hj & Hbefore); simpl.
    rewrite Hmap in Hj. destruct (l !! j) as [a|] eqn:Ha; simplify_eq/=.
    exists a. split; [done|]. split; [done|].
    intros j' b Hlt Hb. specialize (Hbefore j' Hlt).
    rewrite Hmap, Hb in Hbefore. by simplify_eq/=.
  - split; [done|]. intros a Ha.
    apply list_elem_of_lookup_1 in Ha as [j Hj].
    specialize (H j). rewrite Hmap, Hj in H; simpl in H.
    destruct (p a); [done|done].
Qed.

(** ** Ratio estimation *)

Lemma count_zero_iff (t : Z) (y : list Z) : count t y = 0 ↔ t ∉ y.
Proof.
  unfold count. split.
  - intros H Hin.
    assert (Hf : t ∈ filter (λ w, w = t) y) by (apply list_elem_of_filter; done).
    destruct (filter (λ w, w = t) y); [by apply elem_of_nil in Hf|simpl in H; lia].
  - intros Hnot.
    destruct (filter (λ w, w = t) y) as [|w l] eqn:E; [done|].
    assert (Hw : w ∈ filter (λ w, w = t) y) by (rewrite E; left).
    apply list_elem_of_filter in Hw as [-> Hw]. done.
Qed.

(** Auto-estimation on labels without the target value stops at the first
    subscript of line 233. *)
Lemma calculate_ratio_no_target (r : Q) (y : list Z) (t : Z) :
  ¬ (0 < r)%Q → t ∉ y → calculate_ratio r y t = raise IndexError.
Proof.
  intros Hr Ht. unfold calculate_ratio.
  destruct (Qlt_le_dec 0 r) as [Hpos|_]; [done|].
  destruct (np_unique y) as [uv uc] eqn:E.
  pose proof (getitem_where_first (λ v, bool_decide (v = t)) uv) as H.
  destruct (getitem _ 0) as [e|i]; simpl.
  - destruct H as [-> _]. done.
  - destruct H as (a & Ha & Hp & _).
    apply bool_decide_eq_true in Hp as ->.
    exfalso. apply Ht. apply elem_of_unique_values. rewrite E; simpl.
    by eapply list_elem_of_lookup_2.
Qed.

(** C3 (as amended): when the ratio is estimated (the configured ratio is
    not positive) and the target value does not occur in [y], estimation
    fails with an [IndexError], raised where the target is looked up among
    the unique values, before any division; no ratio is returned. *)
Theorem degenerate_ratio_raises_IndexError (r : Q) (y : list Z) (t : Z) :
  ¬ (0 < r)%Q → count t y = 0 → calculate_ratio r y t = raise IndexError.
Proof.
  intros Hr Hc. apply calculate_ratio_no_target; [done|].
  by apply count_zero_iff.
Qed.

Lemma degenerate_ratio_raises_IndexError_witness :
  ¬ (0 < 0)%Q ∧ count 1 [0; 0] = 0 ∧ calculate_ratio 0 [0; 0] 1 = raise IndexError.
Proof.
  assert (H1 : ¬ (0 < 0)%Q) by (intros H; discriminate H).
  assert (H2 : count 1 [0; 0] = 0) by reflexivity.
  split; [exact H1|]. split; [exact H2|].
  exact (degenerate_ratio_raises_IndexError 0 [0; 0] 1 H1 H2).
Defined.

(** C3 (as stated) fails: with no occurrence of the target the error is not
    of the ZeroDivision class. *)
Lemma degenerate_ratio_not_ZeroDivision :
  count 1 [0; 0] = 0 ∧
  sample_data keep_all (model_of (Member over_random) 0 [0; 0] 1) = raise IndexError ∧
  sample_data keep_all (model_of (Member over_random) 0 [0; 0] 1) ≠ raise ZeroDivisionError.
Proof. split; [reflexivity|]. split; [reflexivity|discriminate]. Qed.

(** The division of line 235 never meets a zero count: an estimated ratio
    is finite. *)
Lemma calculate_ratio_finite (r : Q) (y : list Z) (t : Z) (x : npfloat) :
  calculate_ratio r y t = ok x → ∃ q, x = Finite q.
Proof.
  unfold calculate_ratio.
  destruct (Qlt_le_dec 0 r) as [_|_]; [intros [= <-]; eauto|].
  destruct (np_unique y) as [uv uc] eqn:E.
  pose proof (getitem_where_first (λ v, bool_decide (v = t)) uv) as H.
  destruct (getitem _ 0) as [e|i]; simpl; [done|].
  destruct H as (a & Ha & Hp & _). apply bool_decide_eq_true in Hp as ->.
  destruct (getitem _ 0) as [e|j]; simpl; [done|].
  destruct (getitem uc j) as [e|cn]; simpl; [done|].
  assert (Hc : uc !! i = Some (count t y)).
  { pose proof (unique_counts_lookup y i t) as Hl. rewrite E in Hl. by apply Hl. }
  unfold getitem at 1. rewrite Hc; simpl.
  assert (count t y ≠ 0).
  { rewrite count_zero_iff. intros Hn. apply Hn.
    apply elem_of_unique_values. rewrite E. by eapply list_elem_of_lookup_2. }
  unfold np_true_divide. destruct (Z.eqb_spec (count t y) 0); [done|].
  intros [= <-]. simpl. eauto.
Qed.

Lemma calculate_ratio_estimate (r : Q) (y : list Z) (t : Z) :
  ¬ (0 < r)%Q → t ∈ y → (∃ v, v ∈ y ∧ v ≠ t) →
  ∃ nt, nt ∈ y ∧ nt ≠ t ∧ (∀ v, v ∈ y → v ≠ t → nt ≤ v) ∧
    calculate_ratio r y t =
      ok (Finite (inject_Z (count nt y) / inject_Z (count t y) - 1)%Q).
Proof.
  intros Hr Ht (v0 & Hv0 & Hv0t). unfold calculate_ratio.
  destruct (Qlt_le_dec 0 r) as [Hpos|_]; [done|].
  pose proof (elem_of_unique_values y) as Hel.
  pose proof (unique_values_sorted y) as Hsorted.
  pose proof (unique_counts_lookup y) as Hcounts.
  destruct (np_unique y) as [uv uc]; simpl in *.
  pose proof (getitem_where_first (λ v, bool_decide (v = t)) uv) as H1.
  destruct (getitem _ 0) as [e|i]; simpl.
  { destruct H1 as [_ H1]. apply Hel in Ht. specialize (H1 _ Ht).
    by apply bool_decide_eq_false in H1. }
  destruct H1 as (a & Hi & Hp & _). apply bool_decide_eq_true in Hp as ->.
  pose proof (getitem_where_first (λ v, bool_decide (v ≠ t)) uv) as H2.
  destruct (getitem _ 0) as [e|j]; simpl.
  { destruct H2 as [_ H2]. apply Hel in Hv0. specialize (H2 _ Hv0).
    by apply bool_decide_eq_false in H2. }
  destruct H2 as (nt & Hj & Hp & Hbefore). apply bool_decide_eq_true in Hp.
  exists nt. split; [apply Hel; by eapply list_elem_of_lookup_2|].
  split; [done|]. split.
  - intros v Hv Hvt. apply Hel in Hv.
    apply list_elem_of_lookup_1 in Hv as [k Hk].
    destruct (decide (k < j)%nat) as [Hlt|Hge].
    + specialize (Hbefore k v Hlt Hk). by apply bool_decide_eq_false in Hbefore.
    + eapply (sorted_lookup_le uv j k); [done| lia |done..].
  - unfold getitem. rewrite (Hcounts _ _ Hj), (Hcounts _ _ Hi); simpl.
    assert (count t y ≠ 0) by (rewrite count_zero_iff; tauto).
    unfold np_true_divide. by destruct (Z.eqb_spec (count t y) 0).
Qed.

Lemma count_cons (v w : Z) (y : list Z) :
  count v (w :: y) = (if decide (w = v) then 1 else 0) + count v y.
Proof.
  unfold count. rewrite filter_cons.
  destruct (decide (w = v)); simpl length; lia.
Qed.

(** C4 (as amended): for every label vector that contains the target value
    and at least one other value, the estimated ratio is
    [nontarget_count / target_count - 1.0], the non-target class being the
    least value of [y] other than the target; for [y = [A,A,A,B]] with
    target [B] it is 2.0 and for [y = [A,B]] with target [A] it is 0.0. *)
Theorem ratio_estimator_formula :
  (∀ (r : Q) (y : list Z) (t : Z),
     ¬ (0 < r)%Q → t ∈ y → (∃ v, v ∈ y ∧ v ≠ t) →
     ∃ nt, nt ∈ y ∧ nt ≠ t ∧ (∀ v, v ∈ y → v ≠ t → nt ≤ v) ∧
       calculate_ratio r y t =
         ok (Finite (inject_Z (count nt y) / inject_Z (count t y) - 1)%Q)) ∧
  (∀ (r : Q) (A B : Z), ¬ (0 < r)%Q → A ≠ B →
     ∃ q, calculate_ratio r [A; A; A; B] B = ok (Finite q) ∧ (q == 2)%Q) ∧
  (∀ (r : Q) (A B : Z), ¬ (0 < r)%Q → A ≠ B →
     ∃ q, calculate_ratio r [A; B] A = ok (Finite q) ∧ (q == 0)%Q).
Proof.
  split; [exact calculate_ratio_estimate|]. split.
  - intros r A B Hr HAB.
    destruct (calculate_ratio_estimate r [A; A; A; B] B Hr) as (nt & Hin & Hne & _ & ->).
    { set_solver. } { exists A. set_solver. }
    assert (nt = A) as ->.
    { rewrite !elem_of_cons, elem_of_nil in Hin. intuition congruence. }
    eexists. split; [reflexivity|].
    rewrite !count_cons. unfold count; simpl.
    repeat (case_decide; try congruence). reflexivity.
  - intros r A B Hr HAB.
    destruct (calculate_ratio_estimate r [A; B] A Hr) as (nt & Hin & Hne & _ & ->).
    { set_solver. } { exists B. set_solver. }
    assert (nt = B) as ->.
    { rewrite !elem_of_cons, elem_of_nil in Hin. intuition congruence. }
    eexists. split; [reflexivity|].
    rewrite !count_cons. unfold count; simpl.
    repeat (case_decide; try congruence). reflexivity.
Qed.

Lemma ratio_estimator_formula_witness :
  (∃ q, calculate_ratio 0 [0; 0; 0; 1] 1 = ok (Finite q) ∧ (q == 2)%Q) ∧
  (∃ q, calculate_ratio 0 [0; 1] 0 = ok (Finite q) ∧ (q == 0)%Q).
Proof.
  assert (H0 : ¬ (0 < 0)%Q) by (intros H; discriminate H).
  split.
  - apply (proj1 (proj2 ratio_estimator_formula) 0%Q 0 1 H0). discriminate.
  - apply (proj2 (proj2 ratio_estimator_formula) 0%Q 0 1 H0). discriminate.
Defined.

(** C4 (as stated) fails on a label vector that holds the target value
    only: there is no non-target class and no ratio, the second subscript
    of line 234 raises. *)
Lemma ratio_estimator_single_class :
  0 ∈ [0; 0] ∧ ¬ (0 < 0)%Q ∧
  calculate_ratio 0 [0; 0] 0 = raise IndexError ∧
  ¬ (∃ q, calculate_ratio 0 [0; 0] 0 = ok (Finite q)).
Proof.
  split; [set_solver|]. split; [intros H; discriminate H|].
  split; [reflexivity|]. intros [q H]. discriminate H.
Qed.

(** ** Method dispatch *)

Section Dispatch.

Context {Matrix : Type}.
Variable fit_sample : sampler → Matrix → list Z → result (Matrix * list Z).

Lemma sample_data_unfold (model : Model Matrix) :
  sample_data fit_sample model =
    let* ratio := calculate_ratio (sampling_ratio (specs model))
                    (y_train model) (target_value (specs model)) in
    let* sampler := choose_sampler (sampling_method (specs model)) ratio in
    let* Xy := fit_sample sampler (X_train model) (y_train model) in
    ok {| specs := specs model; X_train := Xy.1; y_train := Xy.2 |}.
Proof. reflexivity. Qed.

Lemma choose_sampler_member (m : SamplingMethod) (ratio : npfloat) :
  ∃ s, choose_sampler (Member m) ratio = ok s.
Proof. destruct m; simpl; eauto. Qed.

(** C10: when the configured ratio is not positive the ratio is estimated
    before the sampling method is looked at; so for every [y_train] without
    the target value rebalancing fails in the estimation, whatever the
    method is -- one that ignores the ratio or an unknown one, whose
    [ValueError] is not reached. *)
Theorem ratio_estimation_precedes_dispatch (model : Model Matrix) :
  ¬ (0 < sampling_ratio (specs model))%Q →
  target_value (specs model) ∉ y_train model →
  calculate_ratio (sampling_ratio (specs model)) (y_train model)
    (target_value (specs model)) = raise IndexError ∧
  sample_data fit_sample model = raise IndexError ∧
  ∀ msg, sample_data fit_sample model ≠ raise (ValueError msg).
Proof.
  intros Hr Ht.
  pose proof (calculate_ratio_no_target _ _ _ Hr Ht) as E.
  split; [exact E|].
  rewrite sample_data_unfold, E. simpl. split; [reflexivity|discriminate].
Qed.

(** C5 (as amended): once the ratio step has succeeded, the method dispatch
    raises if and only if the configured method is not one of the supported
    members; the error is the [ValueError] that names the method, and it is
    raised before a sampler is built or applied, whatever [fit_sample] is:
    no resampling takes place.  With a supported method the outcome is the
    one of the sampler chosen. *)
Theorem unknown_method_dispatch (model : Model Matrix) (ratio : npfloat) :
  calculate_ratio (sampling_ratio (specs model)) (y_train model)
    (target_value (specs model)) = ok ratio →
  ((∃ e, choose_sampler (sampling_method (specs model)) ratio = raise e) ↔
   (∃ str, sampling_method (specs model) = Other str)) ∧
  (∀ str, sampling_method (specs model) = Other str →
     sample_data fit_sample model =
       raise (ValueError ("Unknown Sampling Method " +:+ str))) ∧
  (∀ m, sampling_method (specs model) = Member m →
     ∃ s, choose_sampler (Member m) ratio = ok s ∧
          sample_data fit_sample model =
            let* Xy := fit_sample s (X_train model) (y_train model) in
            ok {| specs := specs model; X_train := Xy.1; y_train := Xy.2 |}).
Proof.
  intros E. rewrite sample_data_unfold, E. simpl. split; [split|split].
  - intros [e He]. destruct (sampling_method (specs model)) as [m|str]; [|eauto].
    destruct (choose_sampler_member m ratio) as [s Hs].
    rewrite Hs in He. discriminate He.
  - intros [str ->]. simpl. eauto.
  - intros str ->. reflexivity.
  - intros m ->. destruct (choose_sampler_member m ratio) as [s Hs].
    exists s. split; [done|]. by rewrite Hs.
Qed.

End Dispatch.

Lemma ratio_estimation_precedes_dispatch_witness :
  sample_data keep_all (model_of (Other "bagging") 0 [0; 0] 1) = raise IndexError ∧
  sample_data keep_all (model_of (Member under_random) 0 [0; 0] 1) = raise IndexError.
Proof.
  assert (H0 : ¬ (0 < 0)%Q) by (intros H; discriminate H).
  assert (H1 : (1:Z) ∉ [0; 0]).
  { rewrite !not_elem_of_cons. repeat split; [discriminate..|apply not_elem_of_nil]. }
  split.
  - exact (proj1 (proj2 (ratio_estimation_precedes_dispatch keep_all
             (model_of (Other "bagging") 0 [0; 0] 1) H0 H1))).
  - exact (proj1 (proj2 (ratio_estimation_precedes_dispatch keep_all
             (model_of (Member under_random) 0 [0; 0] 1) H0 H1))).
Defined.

Lemma unknown_method_dispatch_witness :
  sample_data keep_all (model_of (Other "bagging") (1 # 2) [0; 0] 1) =
    raise (ValueError "Unknown Sampling Method bagging").
Proof.
  exact (proj1 (proj2 (unknown_method_dispatch keep_all
           (model_of (Other "bagging") (1 # 2) [0; 0] 1) (Finite (1 # 2)) eq_refl))
         "bagging" eq_refl).
Defined.

(** C5 (as stated) fails: rebalancing raises although the method is a member
    of the enumeration, when the ratio estimation that precedes the dispatch
    fails. *)
Lemma supported_method_still_raises :
  is_ok (sample_data keep_all (model_of (Member under_random) 0 [0; 0] 1)) = false ∧
  ¬ (is_ok (sample_data keep_all (model_of (Member under_random) 0 [0; 0] 1)) = false
     ↔ ∃ str, sampling_method (specs (model_of (Member under_random) 0 [0; 0] 1)) = Other str).
Proof.
  split; [reflexivity|]. intros [H _].
  destruct (H eq_refl) as [str Hstr]. discriminate Hstr.
Qed.

(** ** The record parser *)

Section Parser.

Variable strftime_date : Q → string.
Variable requests_get : Url → string.

(** The loop body, case by case on the kind of the line. *)
Lemma parse_line_classify (interval : Z) (day_item : option Q) (line : string) :
  parse_line strftime_date interval day_item line =
    match classify line with
    | Skipped => ok (day_item, None)
    | Anchor d =>
        ok (Some d,
            Some (record_of strftime_date (d + inject_Z interval * 0)%Q (split "," line)))
    | Offset o =>
        match day_item with
        | Some day =>
            ok (day_item,
                Some (record_of strftime_date (day + inject_Z interval * o)%Q (split "," line)))
        | None => raise (UnboundLocalError "day_item")
        end
    | Invalid e => raise e
    end.
Proof.
  unfold parse_line, classify.
  destruct (split "," line) as [|dt [|c [|h [|l [|o [|v [|x xs]]]]]]]; try reflexivity.
  destruct dt as [|ch rest]; [reflexivity|].
  destruct (Ascii.eqb ch "a").
  - destruct (float rest); reflexivity.
  - destruct (float (String ch rest)); [reflexivity|].
    destruct day_item; reflexivity.
Qed.

Lemma classify_skipped (line : string) :
  classify line = Skipped ↔ length (split "," line) ≠ 6%nat.
Proof.
  unfold classify.
  destruct (split "," line) as [|dt [|c [|h [|l [|o [|v [|x xs]]]]]]]; simpl;
    try (split; [intros _; lia|reflexivity]).
  split; [|lia]. destruct dt as [|ch rest]; [done|].
  destruct (Ascii.eqb ch "a"); [destruct (float rest)|destruct (float _)]; done.
Qed.

Lemma parse_lines_skipped (interval : Z) (d : option Q) (acc : list Record_)
    (line : string) (text : list string) :
  classify line = Skipped →
  parse_lines strftime_date interval d acc (line :: text) =
    parse_lines strftime_date interval d acc text.
Proof. intros H. simpl. rewrite parse_line_classify, H. reflexivity. Qed.

Lemma parse_lines_anchor (interval : Z) (d : option Q) (acc : list Record_)
    (line : string) (text : list string) (b : Q) :
  classify line = Anchor b →
  parse_lines strftime_date interval d acc (line :: text) =
    parse_lines strftime_date interval (Some b)
      (acc ++ [record_of strftime_date (b + inject_Z interval * 0)%Q (split "," line)])
      text.
Proof. intros H. simpl. rewrite parse_line_classify, H. reflexivity. Qed.

Lemma parse_lines_offset (interval : Z) (day : Q) (acc : list Record_)
    (line : string) (text : list string) (o : Q) :
  classify line = Offset o →
  parse_lines strftime_date interval (Some day) acc (line :: text) =
    parse_lines strftime_date interval (Some day)
      (acc ++ [record_of strftime_date (day + inject_Z interval * o)%Q (split "," line)])
      text.
Proof. intros H. simpl. rewrite parse_line_classify, H. reflexivity. Qed.

Lemma parse_lines_unbound (interval : Z) (acc : list Record_)
    (line : string) (text : list string) (o : Q) :
  classify line = Offset o →
  parse_lines strftime_date interval None acc (line :: text) =
    raise (UnboundLocalError "day_item").
Proof. intros H. simpl. rewrite parse_line_classify, H. reflexivity. Qed.

(** A prefix that is read without an exception leaves a day base and a list
    of records from which the rest is read. *)
Lemma parse_lines_prefix (interval : Z) (pre : list string) :
  ∀ d acc, is_ok (parse_lines strftime_date interval d acc pre) = true →
    ∃ d' acc', ∀ rest,
      parse_lines strftime_date interval d acc (pre ++ rest) =
        parse_lines strftime_date interval d' acc' rest.
Proof.
  induction pre as [|line pre IH]; intros d acc Hok; simpl in *.
  - by exists d, acc.
  - destruct (parse_line strftime_date interval d line) as [e|[d' [r|]]];
      simpl in *; [done| |]; by apply IH.
Qed.

(** Skipped and offset lines are read under a bound day base without
    changing it. *)
Lemma parse_lines_keeps_base (interval : Z) (b : Q) (mid : list string) :
  forallb keeps_base mid = true →
  ∀ acc, ∃ acc', ∀ rest,
    parse_lines strftime_date interval (Some b) acc (mid ++ rest) =
      parse_lines strftime_date interval (Some b) acc' rest.
Proof.
  induction mid as [|line mid IH]; intros Hall acc; simpl in *.
  - by exists acc.
  - apply andb_prop in Hall as [Hk Hall]. unfold keeps_base in Hk.
    rewrite parse_line_classify.
    destruct (classify line); try done; simpl; by apply IH.
Qed.

Lemma plain_stream_prefix (interval : Z) (t1 t2 : list string) :
  ∀ d, plain_stream interval d (t1 ++ t2) = true →
       plain_stream interval d t1 = true.
Proof.
  induction t1 as [|line t1 IH]; intros d; [done|].
  simpl. destruct (classify line) as [|b|o|e]; try done.
  - apply IH.
  - intros H. apply andb_prop in H as [-> H]. by apply IH.
  - destruct d as [day|]; [|done].
    intros H. apply andb_prop in H as [-> H]. by apply IH.
Qed.

(** A plain stream is read without an exception. *)
Lemma plain_stream_ok (interval : Z) (text : list string) :
  ∀ d acc, plain_stream interval d text = true →
           is_ok (parse_lines strftime_date interval d acc text) = true.
Proof.
  induction text as [|line text IH]; intros d acc; [done|].
  simpl. rewrite parse_line_classify.
  destruct (classify line) as [|b|o|e]; simpl; try done.
  - apply IH.
  - intros H. apply andb_prop in H as [_ H]. by apply IH.
  - destruct d as [day|]; [|done]. simpl.
    intros H. apply andb_prop in H as [_ H]. by apply IH.
Qed.

(** C1: in a six-field line whose marker starts with the anchor symbol
    [a], the day base becomes the value of the remaining characters and the
    offset is 0; otherwise the marker is an offset from the day base
    in force, which is the one of the most recent anchor line of the
    stream; in both cases the timestamp of the row is
    [day_base + interval_seconds * offset].  The lines meant are those
    with plain timestamps: whole numbers that the code adds and multiplies
    without rounding, in the range that [datetime.fromtimestamp] accepts.
    For the two lines of the example and an interval of 300 seconds the
    timestamps are 1609459200 and 1609459200 + 300 * 60. *)
Theorem timestamp_decoding :
  (∀ interval day_item line rest c h l o v b,
     split "," line = [String "a" rest; c; h; l; o; v] → float rest = ok b →
     plain_timestamp interval b 0 = true →
     ∃ r, parse_line strftime_date interval day_item line = ok (Some b, Some r) ∧
          r_datetime r = (b + inject_Z interval * 0)%Q) ∧
  (∀ interval day line ch rest c h l o v off,
     split "," line = [String ch rest; c; h; l; o; v] → ch ≠ "a"%char →
     float (String ch rest) = ok off →
     plain_timestamp interval day off = true →
     ∃ r, parse_line strftime_date interval (Some day) line = ok (Some day, Some r) ∧
          r_datetime r = (day + inject_Z interval * off)%Q) ∧
  (∀ interval pre anchor mid line b off,
     plain_stream interval None (pre ++ anchor :: mid ++ [line]) = true →
     classify anchor = Anchor b →
     forallb keeps_base mid = true →
     classify line = Offset off →
     ∃ rs r,
       parse_lines strftime_date interval None [] (pre ++ anchor :: mid ++ [line]) =
         ok (rs ++ [r]) ∧
       r_datetime r = (b + inject_Z interval * off)%Q) ∧
  (∃ r1 r2,
     parse_lines strftime_date 300 None []
       ["a1609459200,10,12,9,11,1000"; "60,10.5,12.5,9.5,11.5,2000"] = ok [r1; r2] ∧
     (r_datetime r1 == 1609459200)%Q ∧
     (r_datetime r2 == 1609459200 + 300 * 60)%Q).
Proof.
  split; [|split; [|split]].
  - intros interval d line rest c h l o v b Hs Hf _.
    unfold parse_line. rewrite Hs. simpl. rewrite Hf. simpl. eauto.
  - intros interval day line ch rest c h l o v off Hs Hne Hf _.
    unfold parse_line. rewrite Hs.
    destruct (Ascii.eqb_spec ch "a") as [->|_]; [done|].
    rewrite Hf. simpl. eauto.
  - intros interval pre anchor mid line b off Hplain Ha Hmid Hl.
    pose proof (plain_stream_ok interval pre None []
                  (plain_stream_prefix interval pre _ None Hplain)) as Hpre.
    destruct (parse_lines_prefix interval pre None [] Hpre) as (d' & acc' & Hp).
    rewrite Hp, (parse_lines_anchor _ _ _ _ _ _ Ha).
    destruct (parse_lines_keeps_base interval b mid Hmid
                (acc' ++ [record_of strftime_date (b + inject_Z interval * 0)%Q
                            (split "," anchor)])) as (acc'' & Hm).
    rewrite Hm, (parse_lines_offset _ _ _ _ _ _ Hl). simpl.
    eexists _, _. split; [reflexivity|]. reflexivity.
  - eexists _, _. split; [reflexivity|]. split; reflexivity.
Qed.

End Parser.

Lemma timestamp_decoding_witness :
  ∃ r, parse_line utc_date 300 (Some 1609459200%Q)
         "60,10.5,12.5,9.5,11.5,2000" = ok (Some 1609459200%Q, Some r) ∧
       r_datetime r = (1609459200 + inject_Z 300 * 60)%Q.
Proof.
  refine (proj1 (proj2 (timestamp_decoding utc_date)) 300 1609459200%Q
            "60,10.5,12.5,9.5,11.5,2000" "6"%char "0" "10.5" "12.5" "9.5" "11.5" "2000"
            60%Q eq_refl _ eq_refl eq_refl).
  discriminate.
Defined.

(** ** Skipped lines, unanchored offsets and the frame *)

Lemma classify_anchor (line rest c h l o v : string) (b : Q) :
  split "," line = [String "a" rest; c; h; l; o; v] → float rest = ok b →
  classify line = Anchor b.
Proof. intros Hs Hf. unfold classify. rewrite Hs. simpl. by rewrite Hf. Qed.

Lemma classify_offset (line rest c h l o v : string) (ch : ascii) (off : Q) :
  split "," line = [String ch rest; c; h; l; o; v] → ch ≠ "a"%char →
  float (String ch rest) = ok off →
  classify line = Offset off.
Proof.
  intros Hs Hne Hf. unfold classify. rewrite Hs.
  destruct (Ascii.eqb_spec ch "a") as [->|_]; [done|]. by rewrite Hf.
Qed.

Lemma mapM_typable {A B C} (f : B → result C) (g : A → B) (xs : list A) :
  Forall (λ x, is_ok (f (g x)) = true) xs →
  ∃ ys, mapM f (map g xs) = ok ys ∧ length ys = length xs.
Proof.
  induction 1 as [|x xs Hx _ (ys & E & Hlen)]; simpl.
  - by exists [].
  - destruct (f (g x)) as [e|y]; [done|]. simpl. rewrite E. simpl.
    exists (y :: ys). by rewrite <- Hlen.
Qed.

Lemma make_frame_typable (records : list Record_) :
  Forall (λ r, typable r = true) records →
  ∃ df, make_frame records = ok df ∧
        length (df_index df) = length records ∧
        df_index df = map r_datetime records.
Proof.
  intros Hall. unfold make_frame.
  assert (H : ∀ {C} (f : string → result C) (g : Record_ → string),
            (∀ r, typable r = true → is_ok (f (g r)) = true) →
            ∃ ys, mapM f (map g records) = ok ys ∧ length ys = length records).
  { intros C f g Hfg. apply mapM_typable.
    eapply Forall_impl; [exact Hall|]. exact Hfg. }
  destruct (H _ float r_open) as (opens & -> & _).
  { unfold typable. intros r Hr. by repeat (apply andb_prop in Hr as [Hr ?]). }
  destruct (H _ float r_high) as (highs & -> & _).
  { unfold typable. intros r Hr. by repeat (apply andb_prop in Hr as [Hr ?]). }
  destruct (H _ float r_low) as (lows & -> & _).
  { unfold typable. intros r Hr. by repeat (apply andb_prop in Hr as [Hr ?]). }
  destruct (H _ float r_close) as (closes & -> & _).
  { unfold typable. intros r Hr. by repeat (apply andb_prop in Hr as [Hr ?]). }
  destruct (H _ int r_volume) as (volumes & -> & _).
  { unfold typable. intros r Hr. by repeat (apply andb_prop in Hr as [Hr ?]). }
  simpl. eexists. split; [reflexivity|]. simpl.
  split; [|done]. by rewrite length_map.
Qed.

Section Lines.

Variable strftime_date : Q → string.
Variable requests_get : Url → string.

Lemma get_google_data_interval (symbol : string) (lookback_period : Z)
    (fractal digits : string) (minutes : Z) :
  getitem (findall_digits None fractal) 0 = ok digits →
  int digits = ok minutes →
  get_google_data strftime_date requests_get symbol lookback_period fractal =
    let* records :=
      parse_lines strftime_date (60 * minutes) None []
        (data_lines requests_get symbol lookback_period (60 * minutes)) in
    make_frame records.
Proof. intros H1 H2. unfold get_google_data. rewrite H1. simpl. by rewrite H2. Qed.

Lemma parse_lines_skips (interval : Z) (skips rest : list string) :
  Forall (λ l, length (split "," l) ≠ 6%nat) skips →
  ∀ d acc,
    parse_lines strftime_date interval d acc (skips ++ rest) =
      parse_lines strftime_date interval d acc rest.
Proof.
  induction 1 as [|l skips Hl _ IH]; intros d acc; [done|].
  rewrite <- app_comm_cons, parse_lines_skipped; [apply IH|].
  by apply classify_skipped.
Qed.

Lemma parse_lines_drop_malformed (interval : Z) (t1 t2 : list string) (bad : string) :
  length (split "," bad) ≠ 6%nat →
  ∀ d acc,
    parse_lines strftime_date interval d acc (t1 ++ bad :: t2) =
      parse_lines strftime_date interval d acc (t1 ++ t2).
Proof.
  intros Hbad. induction t1 as [|l t1 IH]; intros d acc.
  - simpl app. apply parse_lines_skipped. by apply classify_skipped.
  - simpl.
    destruct (parse_line strftime_date interval d l) as [e|[d' [r|]]]; simpl;
      [done|apply IH..].
Qed.

Lemma record_of_typable (dt : Q) (line : string) :
  numeric_fields line = true →
  typable (record_of strftime_date dt (split "," line)) = true.
Proof.
  unfold numeric_fields, typable, record_of.
  destruct (split "," line) as [|m [|c [|h [|l [|o [|v [|x xs]]]]]]]; try done.
  simpl. intros H. repeat (apply andb_prop in H as [H ?]).
  repeat (apply andb_true_intro; split); done.
Qed.

(** A well-formed stream is read without an exception, into one typable
    record per line. *)
Lemma parse_lines_well_formed (interval : Z) (text : list string) :
  ∀ based d acc,
    well_formed based text = true →
    (based = true → is_Some d) →
    ∃ rs, parse_lines strftime_date interval d acc text = ok (acc ++ rs) ∧
          length rs = length text ∧
          Forall (λ r, typable r = true) rs.
Proof.
  induction text as [|line text IH]; intros based d acc Hwf Hd.
  - exists []. simpl. by rewrite app_nil_r.
  - simpl in Hwf. apply andb_prop in Hwf as [Hnum Hwf].
    simpl. rewrite parse_line_classify.
    destruct (classify line) as [|b|o|e] eqn:E; try done.
    + simpl. destruct (IH true (Some b)
                  (acc ++ [record_of strftime_date (b + inject_Z interval * 0)%Q
                             (split "," line)]) Hwf) as (rs & -> & Hlen & Hall);
        [by eauto|].
      eexists (_ :: rs). rewrite <- app_assoc. split; [reflexivity|].
      split; [simpl; by rewrite Hlen|].
      constructor; [by apply record_of_typable|done].
    + apply andb_prop in Hwf as [Hb Hwf].
      destruct (Hd Hb) as [day ->]. simpl.
      destruct (IH based (Some day)
                  (acc ++ [record_of strftime_date (day + inject_Z interval * o)%Q
                             (split "," line)]) Hwf) as (rs & -> & Hlen & Hall);
        [by eauto|].
      eexists (_ :: rs). rewrite <- app_assoc. split; [reflexivity|].
      split; [simpl; by rewrite Hlen|].
      constructor; [by apply record_of_typable|done].
Qed.

End Lines.

(** C9: decoding needs an anchor line before every offset line: when the
    first six-field data line after the preamble is an offset line,
    [day_item] is read before it was ever assigned and the parse fails with
    an [UnboundLocalError]; no row is made and the line is not skipped. *)
Theorem unanchored_offset_unbound (strftime_date : Q → string)
    (requests_get : Url → string) (symbol : string) (lookback_period : Z)
    (fractal digits : string) (minutes : Z) (skips rest : list string)
    (line mrest c h l o v : string) (ch : ascii) (off : Q) :
  getitem (findall_digits None fractal) 0 = ok digits →
  int digits = ok minutes →
  data_lines requests_get symbol lookback_period (60 * minutes) =
    skips ++ line :: rest →
  Forall (λ l, length (split "," l) ≠ 6%nat) skips →
  split "," line = [String ch mrest; c; h; l; o; v] →
  ch ≠ "a"%char →
  float (String ch mrest) = ok off →
  parse_line strftime_date (60 * minutes) None line =
    raise (UnboundLocalError "day_item") ∧
  get_google_data strftime_date requests_get symbol lookback_period fractal =
    raise (UnboundLocalError "day_item").
Proof.
  intros Hd Hm Hlines Hskips Hs Hne Hf.
  pose proof (classify_offset _ _ _ _ _ _ _ _ _ Hs Hne Hf) as Hk.
  split.
  - rewrite parse_line_classify, Hk. reflexivity.
  - rewrite (get_google_data_interval _ _ _ _ _ _ _ Hd Hm), Hlines.
    rewrite parse_lines_skips by done.
    by rewrite (parse_lines_unbound _ _ _ _ _ _ Hk).
Qed.

Lemma unanchored_offset_unbound_witness :
  get_google_data utc_date (serve feed_unanchored) "aapl" 10 "5m" =
    raise (UnboundLocalError "day_item").
Proof.
  refine (proj2 (unanchored_offset_unbound utc_date (serve feed_unanchored)
            "aapl" 10 "5m" "5" 5 [] ["a1609459200,10,12,9,11,1000"]
            "60,10.5,12.5,9.5,11.5,2000" "0" "10.5" "12.5" "9.5" "11.5" "2000"
            "6"%char 60%Q eq_refl eq_refl eq_refl (Forall_nil_2 _) eq_refl _ eq_refl)).
  discriminate.
Defined.

(** C6: a line whose split on the comma does not give exactly six fields is
    discarded without an error and without a trace in the table; a feed with
    one five-field line among otherwise well-formed lines gives a table with
    one row less than it has lines; the six fields of a line are taken as
    time marker, close, high, low, open, volume, in this order.  The
    well-formed lines meant are those whose timestamps are plain and whose
    volumes fit a 64-bit integer, so that neither [fromtimestamp] nor the
    typing of the volume column can overflow. *)
Theorem malformed_line_tolerance (strftime_date : Q → string)
    (requests_get : Url → string) :
  (∀ interval day_item line,
     length (split "," line) ≠ 6%nat →
     parse_line strftime_date interval day_item line = ok (day_item, None)) ∧
  (∀ interval day_item records t1 bad t2,
     length (split "," bad) ≠ 6%nat →
     parse_lines strftime_date interval day_item records (t1 ++ bad :: t2) =
       parse_lines strftime_date interval day_item records (t1 ++ t2)) ∧
  (∀ symbol lookback_period fractal digits minutes t1 bad t2,
     getitem (findall_digits None fractal) 0 = ok digits →
     int digits = ok minutes →
     data_lines requests_get symbol lookback_period (60 * minutes) =
       t1 ++ bad :: t2 →
     length (split "," bad) = 5%nat →
     well_formed false (t1 ++ t2) = true →
     plain_stream (60 * minutes) None (t1 ++ t2) = true →
     forallb volume_fits (t1 ++ t2) = true →
     ∃ df,
       get_google_data strftime_date requests_get symbol lookback_period fractal =
         ok df ∧
       length (df_index df) = (length (t1 ++ bad :: t2) - 1)%nat) ∧
  (∀ interval day_item line m c h l o v st r,
     split "," line = [m; c; h; l; o; v] →
     parse_line strftime_date interval day_item line = ok (st, Some r) →
     r_close r = c ∧ r_high r = h ∧ r_low r = l ∧ r_open r = o ∧ r_volume r = v).
Proof.
  split; [|split; [|split]].
  - intros interval d line Hlen.
    rewrite parse_line_classify. by apply classify_skipped in Hlen as ->.
  - intros interval d records t1 bad t2 Hlen.
    by apply parse_lines_drop_malformed.
  - intros symbol lookback fractal digits minutes t1 bad t2 Hd Hm Hlines Hlen Hwf _ _.
    rewrite (get_google_data_interval _ _ _ _ _ _ _ Hd Hm), Hlines.
    rewrite parse_lines_drop_malformed by lia.
    destruct (parse_lines_well_formed strftime_date (60 * minutes) (t1 ++ t2)
                false None [] Hwf) as (rs & -> & Hrs & Hall); [done|].
    simpl. destruct (make_frame_typable rs Hall) as (df & -> & Hdf & _).
    exists df. split; [done|].
    rewrite Hdf, Hrs, !length_app. simpl. lia.
  - intros interval d line m c h l o v st r Hs.
    rewrite parse_line_classify. unfold record_of. rewrite Hs.
    destruct (classify line) as [| | |]; [done| | |done].
    + intros [= _ <-]. done.
    + destruct d; [|done]. intros [= _ <-]. done.
Qed.

Lemma malformed_line_tolerance_witness :
  ∃ df, get_google_data utc_date (serve feed_malformed) "aapl" 10 "5m" = ok df ∧
        length (df_index df) = (3 - 1)%nat.
Proof.
  exact (proj1 (proj2 (proj2 (malformed_line_tolerance utc_date
           (serve feed_malformed))))
           "aapl" 10 "5m" "5" 5
           ["a1609459200,10,12,9,11,1000"] "1,10.5,12.5,9.5,11.5"
           ["2,10.7,12.7,9.7,11.7,1500"]
           eq_refl eq_refl eq_refl eq_refl eq_refl eq_refl eq_refl).
Defined.

(** ** Bar numbers and end-of-day marks *)

Lemma cumcount_lookup (keys : list string) :
  ∀ seen i k, keys !! i = Some k →
    cumcount seen keys !! i =
      Some (Z.of_nat (length (filter (λ k', k' = k) seen) +
                      length (filter (λ k', k' = k) (take i keys)))).
Proof.
  induction keys as [|k0 keys IH]; intros seen i k Hi; [done|].
  destruct i as [|i]; simpl in *.
  - simplify_eq. by rewrite Nat.add_0_r.
  - rewrite (IH (k0 :: seen) i k Hi). do 2 f_equal.
    rewrite !filter_cons. destruct (decide (k0 = k)); simpl; lia.
Qed.

Lemma cumcount_length (keys : list string) :
  ∀ seen, length (cumcount seen keys) = length keys.
Proof. induction keys; intros seen; simpl; auto. Qed.

Lemma elem_of_tail1_index (keys : list string) :
  ∀ i j, j ∈ tail1_index i keys ↔
    ∃ p k, j = (i + p)%nat ∧ keys !! p = Some k ∧ k ∉ drop (S p) keys.
Proof.
  induction keys as [|k0 keys IH]; intros i j; simpl.
  - rewrite elem_of_nil. split; [done|]. by intros (p & k & _ & ? & _).
  - assert (Hrec : j ∈ tail1_index (S i) keys ↔
              ∃ p k, j = (i + S p)%nat ∧ keys !! p = Some k ∧ k ∉ drop (S p) keys).
    { rewrite IH. split; intros (p & k & -> & ?); exists p, k; split; (lia || done). }
    case_bool_decide as Hin.
    + rewrite Hrec. split.
      * intros (p & k & -> & ? & ?). by exists (S p), k.
      * intros ([|p] & k & -> & Hp & Hnot); simpl in *; [by simplify_eq|].
        by exists p, k.
    + rewrite elem_of_cons, Hrec. split.
      * intros [->|(p & k & -> & ? & ?)].
        -- exists 0%nat, k0. split; [lia|]. done.
        -- by exists (S p), k.
      * intros ([|p] & k & -> & Hp & Hnot); simpl in *; [left; lia|].
        right. by exists p, k.
Qed.

Lemma loc_set_length {A} (idx : list nat) (v : A) (col : list A) :
  length (loc_set idx v col) = length col.
Proof.
  induction idx as [|i idx IH]; simpl; [done|]. by rewrite length_insert.
Qed.

Lemma loc_set_lookup {A} (idx : list nat) (v : A) (col : list A) (j : nat) :
  (j < length col)%nat →
  loc_set idx v col !! j = if decide (j ∈ idx) then Some v else col !! j.
Proof.
  intros Hj. induction idx as [|i idx IH].
  - case_decide as Hin; [by apply elem_of_nil in Hin|done].
  - change (loc_set (i :: idx) v col) with (<[i := v]> (loc_set idx v col)).
    rewrite list_lookup_insert, loc_set_length, IH.
    destruct (decide (i = j ∧ (i < length col)%nat)) as [[-> _]|Hn].
    + destruct (decide (j ∈ j :: idx)) as [_|Hnot]; [done|].
      exfalso. apply Hnot. left.
    + destruct (decide (j ∈ idx)) as [Hin|Hnin],
        (decide (j ∈ i :: idx)) as [Hin'|Hnin']; try done.
      * exfalso. apply Hnin'. by right.
      * exfalso. apply elem_of_cons in Hin' as [->|?]; [|done].
        apply Hn. split; [done|lia].
Qed.

(** The marks of line 363 on a fresh column of [False]. *)
Lemma end_of_day_lookup (keys : list string) (i : nat) (k : string) :
  keys !! i = Some k →
  loc_set (tail1_index 0 keys) true (replicate (length keys) false) !! i =
    Some (bool_decide (k ∉ drop (S i) keys)).
Proof.
  intros Hi. pose proof (lookup_lt_Some _ _ _ Hi) as Hlt.
  rewrite loc_set_lookup by (by rewrite length_replicate).
  destruct (decide (i ∈ tail1_index 0 keys)) as [Hin|Hnin].
  - apply elem_of_tail1_index in Hin as (p & k' & Hp & Hk' & Hnot).
    simpl in Hp. subst p. simplify_eq. by rewrite bool_decide_eq_true_2.
  - rewrite lookup_replicate_2 by done. f_equal. symmetry.
    apply bool_decide_eq_false_2. intros Hnot. apply Hnin.
    apply elem_of_tail1_index. by exists i, k.
Qed.

Section Numbering.

Variable strftime_date : Q → string.
Variable requests_get : Url → string.

Lemma parse_lines_dates (interval : Z) (text : list string) :
  ∀ d acc rs,
    Forall (λ r, r_date r = strftime_date (r_datetime r)) acc →
    parse_lines strftime_date interval d acc text = ok rs →
    Forall (λ r, r_date r = strftime_date (r_datetime r)) rs.
Proof.
  induction text as [|line text IH]; intros d acc rs Hacc; simpl.
  - by intros [= <-].
  - rewrite parse_line_classify.
    destruct (classify line) as [|b|o|e]; simpl; try done.
    + by apply IH.
    + apply IH. apply Forall_app. split; [done|]. by repeat constructor.
    + destruct d as [day|]; simpl; [|done].
      apply IH. apply Forall_app. split; [done|]. by repeat constructor.
Qed.

(** What [get_google_data] returns, in terms of the calendar dates of its
    index. *)
Lemma get_google_data_frame (symbol : string) (lookback_period : Z)
    (fractal : string) (df : DataFrame) :
  get_google_data strftime_date requests_get symbol lookback_period fractal = ok df →
  let dates := map strftime_date (df_index df) in
  df_bar_number df = cumcount [] dates ∧
  df_end_of_day df =
    loc_set (tail1_index 0 dates) true (replicate (length dates) false).
Proof.
  unfold get_google_data.
  destruct (getitem _ 0) as [e|digits]; simpl; [done|].
  destruct (int digits) as [e|minutes]; simpl; [done|].
  destruct (parse_lines _ _ _ _ _) as [e|records] eqn:E; simpl; [done|].
  apply parse_lines_dates in E; [|constructor].
  assert (Hd : map r_date records = map strftime_date (map r_datetime records)).
  { clear -E. induction E as [|r rs Hr _ IH]; simpl; [done|]. by rewrite Hr, IH. }
  unfold make_frame.
  repeat (destruct (mapM _ _) as [e|?]; simpl; [done|]).
  intros [= <-]. simpl. rewrite <- Hd. rewrite !length_map. done.
Qed.

End Numbering.

(** C7: the rows are grouped by the calendar date of their timestamp; the
    bar number of a row is the number of earlier rows of the same date (a
    count from 0 in arrival order), the end-of-day mark is true exactly on
    the rows that no later row shares its date with, the last of each date;
    the column [date] is not part of the frame returned; three rows of one
    day are numbered 0, 1, 2 and marked False, False, True. *)
Theorem intraday_bar_numbering (strftime_date : Q → string)
    (requests_get : Url → string) (symbol : string) (lookback_period : Z)
    (fractal : string) (df : DataFrame) :
  get_google_data strftime_date requests_get symbol lookback_period fractal = ok df →
  let dates := map strftime_date (df_index df) in
  (∀ i k, dates !! i = Some k →
     df_bar_number df !! i =
       Some (Z.of_nat (length (filter (λ k', k' = k) (take i dates)))) ∧
     df_end_of_day df !! i = Some (bool_decide (k ∉ drop (S i) dates))) ∧
  length (df_bar_number df) = length (df_index df) ∧
  length (df_end_of_day df) = length (df_index df) ∧
  google_columns =
    ["open"; "high"; "low"; "close"; "volume"; "bar_number"; "end_of_day"] ∧
  ("date" ∉ google_columns) ∧
  (∀ k, dates = [k; k; k] →
     df_bar_number df = [0; 1; 2] ∧ df_end_of_day df = [false; false; true]).
Proof.
  intros Hdf dates.
  destruct (get_google_data_frame _ _ _ _ _ _ Hdf) as [Hbar Heod].
  fold dates in Hbar, Heod.
  split; [|split; [|split; [|split; [|split]]]].
  - intros i k Hi. split.
    + rewrite Hbar, (cumcount_lookup _ _ _ _ Hi). done.
    + rewrite Heod. by apply end_of_day_lookup.
  - rewrite Hbar, cumcount_length. unfold dates. by rewrite length_map.
  - rewrite Heod, loc_set_length, length_replicate. unfold dates.
    by rewrite length_map.
  - reflexivity.
  - change google_columns with
      ["open"; "high"; "low"; "close"; "volume"; "bar_number"; "end_of_day"].
    rewrite !not_elem_of_cons.
    repeat split; (discriminate || apply not_elem_of_nil).
  - intros k Hk. rewrite Hbar, Heod, Hk. simpl.
    rewrite !filter_cons, !decide_True by done. simpl.
    rewrite !bool_decide_eq_true_2 by left.
    done.
Qed.

Lemma intraday_bar_numbering_witness :
  ∃ df, get_google_data utc_date (serve feed_three) "aapl" 10 "5m" = ok df ∧
        df_bar_number df = [0; 1; 2] ∧
        df_end_of_day df = [false; false; true].
Proof.
  eexists. split; [reflexivity|].
  exact (proj2 (proj2 (proj2 (proj2 (proj2
           (intraday_bar_numbering utc_date (serve feed_three) "aapl" 10 "5m" _
              eq_refl))))) "2021-01-01" eq_refl).
Defined.

(** ** The loop over the symbols of a group *)

Section Orchestrator.

Variable strftime_date : Q → string.
Variable requests_get : Url → string.
Variable now_start now_end : Q.
Variable DataReader : string → string → Q → Q → result DailyFrame.

Variable daily_data : bool.
Variable gspace : Space.
Variable lookback_period : Z.

(** While every item yields a table the loop runs to its end. *)
Lemma feed_loop_completes (items : list string) :
  Forall (λ item,
            is_ok (feed_item strftime_date requests_get now_start now_end
                     DataReader daily_data gspace lookback_period item) = true)
    items →
  ∀ w,
    feed_loop strftime_date requests_get now_start now_end DataReader
      daily_data gspace lookback_period items w =
      (ok tt,
       {| frames :=
            registered strftime_date requests_get now_start now_end DataReader
              daily_data gspace lookback_period items (frames w);
          log :=
            log w ++
            logged strftime_date requests_get now_start now_end DataReader
              daily_data gspace lookback_period items |}).
Proof.
  induction 1 as [|item items Hok _ IH]; intros w.
  - unfold registered, logged; simpl. rewrite app_nil_r. by destruct w.
  - unfold registered, logged in *. simpl.
    destruct (feed_item _ _ _ _ _ _ _ _ item) as [e|df]; [done|].
    rewrite IH. destruct (0 <? len df)%nat; simpl; by rewrite <- ?app_assoc.
Qed.


End Orchestrator.

(** C8: the symbols of the group are handled in the declared order by the
    normalizer selected; a non-empty table is registered under the
    lower-cased symbol, an empty one is not registered and the iteration goes
    on without raising; with two symbols, the first without rows and the
    second with three, exactly one table is registered, the second, and the
    run completes. *)
Theorem empty_feed_tolerance (strftime_date : Q → string)
    (requests_get : Url → string) (now_start now_end : Q)
    (DataReader : string → string → Q → Q → result DailyFrame)
    (group : Group) (lookback_period : Z) :
  let daily_data := contains "d" (fractal (space group)) in
  let item_frame :=
    feed_item strftime_date requests_get now_start now_end DataReader
      daily_data (space group) lookback_period in
  let run :=
    get_feed_data strftime_date requests_get now_start now_end DataReader
      group lookback_period in
  (Forall (λ item, is_ok (item_frame item) = true) (members group) →
   ∀ w, run w =
     (ok daily_data,
      {| frames :=
           registered strftime_date requests_get now_start now_end DataReader
             daily_data (space group) lookback_period (members group) (frames w);
         log :=
           (log w ++ [if daily_data then info_daily else info_intraday]) ++
           logged strftime_date requests_get now_start now_end DataReader
             daily_data (space group) lookback_period (members group) |})) ∧
  (∀ s1 s2 t1 t2,
     members group = [s1; s2] →
     item_frame s1 = ok t1 → len t1 = 0%nat →
     item_frame s2 = ok t2 → len t2 = 3%nat →
     (run empty_world).1 = ok daily_data ∧
     frames (run empty_world).2 = {[ lower s2 := t2 ]} ∧
     size (frames (run empty_world).2) = 1%nat ∧
     log (run empty_world).2 =
       [if daily_data then info_daily else info_intraday;
        info_getting s1 lookback_period; info_could_not_get s1;
        info_getting s2 lookback_period]).
Proof.
  intros daily_data item_frame run.
  assert (Hall : Forall (λ item, is_ok (item_frame item) = true) (members group) →
    ∀ w, run w =
     (ok daily_data,
      {| frames :=
           registered strftime_date requests_get now_start now_end DataReader
             daily_data (space group) lookback_period (members group) (frames w);
         log :=
           (log w ++ [if daily_data then info_daily else info_intraday]) ++
           logged strftime_date requests_get now_start now_end DataReader
             daily_data (space group) lookback_period (members group) |})).
  { intros Hok w. unfold run, get_feed_data. fold daily_data.
    rewrite feed_loop_completes by exact Hok. reflexivity. }
  split; [exact Hall|].
  intros s1 s2 t1 t2 Hm H1 Hl1 H2 Hl2.
  rewrite Hall.
  2:{ rewrite Hm. repeat constructor; [by rewrite H1|by rewrite H2]. }
  rewrite Hm. unfold registered, logged. cbn [foldl flat_map].
  fold item_frame. rewrite H1, H2. unfold ok. cbv beta iota.
  rewrite Hl1, Hl2. simpl.
  rewrite insert_empty.
  split; [done|]. split; [done|]. split; [|done].
  apply map_size_singleton.
Qed.

Lemma empty_feed_tolerance_witness :
  (get_feed_data utc_date quiet_then_three 0 0 no_rows two_symbols 10 empty_world).1
    = ok false ∧
  size (frames (get_feed_data utc_date quiet_then_three 0 0 no_rows
                  two_symbols 10 empty_world).2) = 1%nat.
Proof.
  destruct (proj2 (empty_feed_tolerance utc_date quiet_then_three 0 0 no_rows
                     two_symbols 10) "AAA" "BBB" _ _ eq_refl eq_refl eq_refl
              eq_refl eq_refl) as (H1 & _ & H2 & _).
  exact (conj H1 H2).
Defined.

(** ** Coercion errors *)







(** *** Characters that no numeric literal has *)














(** * Further properties *)

(** ** The estimated ratio *)

Lemma count_Permutation (v : Z) (y y' : list Z) :
  y ≡ₚ y' → count v y = count v y'.
Proof. intros H. unfold count. by rewrite H. Qed.

Lemma sorted_NoDup (l : list Z) : StronglySorted Z.lt l → NoDup l.
Proof.
  induction 1 as [|x l _ IH Hall]; constructor; [|done].
  intros Hin. rewrite Forall_forall in Hall. specialize (Hall _ Hin). lia.
Qed.

Lemma np_unique_Permutation (y y' : list Z) :
  y ≡ₚ y' → np_unique y = np_unique y'.
Proof.
  intros H.
  assert (Huv : (np_unique y).1 = (np_unique y').1).
  { apply (StronglySorted_unique_strong Z.lt).
    - intros; lia.
    - apply unique_values_sorted.
    - apply unique_values_sorted.
    - apply NoDup_Permutation.
      + apply sorted_NoDup, unique_values_sorted.
      + apply sorted_NoDup, unique_values_sorted.
      + intros x. rewrite !elem_of_unique_values. by rewrite H. }
  unfold np_unique in *. simpl in *. rewrite Huv. f_equal.
  apply map_ext. intros v. by apply count_Permutation.
Qed.

(** X1: the ratio depends on the labels as a multiset only: reordering
    [y] changes neither the estimate nor the failure. *)
Theorem calculate_ratio_Permutation (r : Q) (y y' : list Z) (t : Z) :
  y ≡ₚ y' → calculate_ratio r y t = calculate_ratio r y' t.
Proof.
  intros H. unfold calculate_ratio. by rewrite (np_unique_Permutation y y' H).
Qed.

Lemma calculate_ratio_Permutation_witness :
  calculate_ratio 0 [0; 1; 0; 0] 1 = calculate_ratio 0 [1; 0; 0; 0] 1.
Proof.
  apply calculate_ratio_Permutation.
  apply perm_swap.
Defined.

Lemma calculate_ratio_one_class (r : Q) (y : list Z) (t : Z) :
  ¬ (0 < r)%Q → (∀ v, v ∈ y → v = t) → calculate_ratio r y t = raise IndexError.
Proof.
  intros Hr Hall. unfold calculate_ratio.
  destruct (Qlt_le_dec 0 r) as [Hpos|_]; [done|].
  pose proof (elem_of_unique_values y) as Hel.
  destruct (np_unique y) as [uv uc]; simpl in *.
  pose proof (getitem_where_first (λ v, bool_decide (v = t)) uv) as H1.
  destruct (getitem _ 0) as [e|i]; simpl; [by destruct H1 as [-> _]|].
  pose proof (getitem_where_first (λ v, bool_decide (v ≠ t)) uv) as H2.
  destruct (getitem _ 0) as [e|j]; simpl; [by destruct H2 as [-> _]|].
  destruct H2 as (nt & Hj & Hp & _). apply bool_decide_eq_true in Hp.
  exfalso. apply Hp, Hall, Hel. by eapply list_elem_of_lookup_2.
Qed.

Lemma calculate_ratio_ok_inv (r : Q) (y : list Z) (t : Z) (x : npfloat) :
  ¬ (0 < r)%Q → calculate_ratio r y t = ok x →
  t ∈ y ∧ ∃ v, v ∈ y ∧ v ≠ t.
Proof.
  intros Hr Hok. split.
  - destruct (decide (t ∈ y)) as [|Hnot]; [done|].
    rewrite (calculate_ratio_no_target r y t Hr Hnot) in Hok. discriminate Hok.
  - destruct (decide (Exists (λ v, v ≠ t) y)) as [Hex|Hnex].
    + apply Exists_exists in Hex as (v & ? & ?). eauto.
    + rewrite (calculate_ratio_one_class r y t Hr) in Hok; [discriminate Hok|].
      intros v Hv. destruct (decide (v = t)) as [|Hne]; [done|].
      exfalso. apply Hnex. apply Exists_exists. eauto.
Qed.

Lemma count_pos (v : Z) (y : list Z) : v ∈ y → 0 < count v y.
Proof.
  intros Hv. pose proof (proj1 (count_zero_iff v y)) as H.
  assert (0 ≤ count v y) by (unfold count; lia).
  destruct (decide (count v y = 0)) as [E|]; [by apply H in E|lia].
Qed.

Lemma ratio_sign (a b : Z) :
  0 < a → 0 < b →
  let q := (inject_Z a / inject_Z b - 1)%Q in
  (-1 < q)%Q ∧ ((q == 0)%Q ↔ a = b) ∧ ((q < 0)%Q ↔ a < b).
Proof.
  intros Ha Hb q. subst q.
  destruct b as [|p|p]; try lia.
  unfold Qlt, Qeq, Qminus, Qplus, Qopp, Qdiv, Qmult, Qinv, inject_Z. simpl.
  repeat split; intros; nia.
Qed.

(** X2: an estimated ratio is above -1; it is 0 exactly when the target
    class and the comparison class (the least other value) are equally
    frequent, and negative exactly when the target class is the more
    frequent of the two. *)
Theorem estimated_ratio_sign (r : Q) (y : list Z) (t : Z) (q : Q) :
  ¬ (0 < r)%Q → calculate_ratio r y t = ok (Finite q) →
  (-1 < q)%Q ∧
  ∃ nt, nt ∈ y ∧ nt ≠ t ∧ (∀ v, v ∈ y → v ≠ t → nt ≤ v) ∧
        ((q == 0)%Q ↔ count nt y = count t y) ∧
        ((q < 0)%Q ↔ count nt y < count t y).
Proof.
  intros Hr Hok.
  destruct (calculate_ratio_ok_inv r y t _ Hr Hok) as [Ht Hex].
  destruct (calculate_ratio_estimate r y t Hr Ht Hex) as (nt & Hnt & Hne & Hmin & E).
  rewrite E in Hok. injection Hok as <-.
  destruct (ratio_sign (count nt y) (count t y)) as (H1 & H2 & H3);
    [by apply count_pos..|].
  split; [exact H1|]. exists nt. repeat split; tauto.
Qed.

Lemma estimated_ratio_sign_witness :
  ∃ q, calculate_ratio 0 [1; 1; 1; 0] 1 = ok (Finite q) ∧ (-1 < q)%Q.
Proof.
  eexists. split; [reflexivity|].
  refine (proj1 (estimated_ratio_sign 0 [1; 1; 1; 0] 1 _ _ eq_refl)).
  intros H; discriminate H.
Defined.

(** X3: the labels of any further class are ignored: appending labels that
    are all greater than the comparison class and different from the target
    leaves the estimate as it is. *)
Theorem further_classes_ignored (r : Q) (y z : list Z) (t nt : Z) :
  ¬ (0 < r)%Q → t ∈ y → nt ∈ y → nt ≠ t →
  (∀ v, v ∈ y → v ≠ t → nt ≤ v) →
  (∀ v, v ∈ z → v ≠ t ∧ nt < v) →
  calculate_ratio r (y ++ z) t = calculate_ratio r y t.
Proof.
  intros Hr Ht Hnt Hne Hmin Hz.
  destruct (calculate_ratio_estimate r y t Hr Ht) as (n1 & Hn1 & Hne1 & Hmin1 & ->);
    [by eauto|].
  destruct (calculate_ratio_estimate r (y ++ z) t Hr) as (n2 & Hn2 & Hne2 & Hmin2 & ->).
  { apply elem_of_app. by left. } { exists nt. split; [|done]. apply elem_of_app. by left. }
  assert (n1 = nt) as ->.
  { apply Z.le_antisymm; [by apply Hmin1|by apply Hmin]. }
  assert (n2 = nt) as ->.
  { apply Z.le_antisymm.
    - apply Hmin2; [|done]. apply elem_of_app. by left.
    - apply elem_of_app in Hn2 as [Hin|Hin]; [by apply Hmin|].
      destruct (Hz _ Hin). lia. }
  assert (Hcount : ∀ v, (v = t ∨ v = nt) → count v (y ++ z) = count v y).
  { intros v Hv. unfold count. rewrite filter_app, length_app.
    assert (filter (λ w, w = v) z = []) as ->; [|simpl; lia].
    destruct (filter (λ w, w = v) z) as [|w l] eqn:E; [done|].
    assert (Hw : w ∈ filter (λ w, w = v) z) by (rewrite E; left).
    apply list_elem_of_filter in Hw as [-> Hw]. destruct (Hz _ Hw). lia. }
  rewrite !Hcount by auto. done.
Qed.

Lemma further_classes_ignored_witness :
  calculate_ratio 0 ([0; 0; 0; 1] ++ [2; 2; 5]) 1 = calculate_ratio 0 [0; 0; 0; 1] 1.
Proof.
  apply (further_classes_ignored 0 [0; 0; 0; 1] [2; 2; 5] 1 0).
  - intros H; discriminate H.
  - rewrite !elem_of_cons. lia.
  - rewrite !elem_of_cons. lia.
  - discriminate.
  - intros v Hv Hvt.
    rewrite !elem_of_cons, elem_of_nil in Hv. lia.
  - intros v Hv.
    rewrite !elem_of_cons, elem_of_nil in Hv. lia.
Defined.

(** ** Shuffling *)

Lemma take_rows_in_range {A} (a : list A) (indices : list nat) :
  Forall (λ i, (i < length a)%nat) indices →
  take_rows a indices = ok (omap (λ i, a !! i) indices).
Proof.
  unfold take_rows. induction 1 as [|i indices Hi _ IH]; [done|].
  simpl. unfold getitem at 1.
  destruct (lookup_lt_is_Some_2 a i Hi) as [x Hx]. rewrite Hx. simpl.
  by rewrite IH.
Qed.

Lemma take_rows_out_of_range {A} (a : list A) (indices : list nat) (i : nat) :
  i ∈ indices → (length a ≤ i)%nat → take_rows a indices = raise IndexError.
Proof.
  unfold take_rows. intros Hin Hi.
  induction indices as [|j indices IH]; [by apply elem_of_nil in Hin|].
  simpl. unfold getitem at 1. destruct (a !! j) as [x|] eqn:Hx; simpl; [|done].
  apply elem_of_cons in Hin as [->|Hin].
  - apply lookup_lt_Some in Hx. lia.
  - by rewrite IH.
Qed.

Lemma omap_lookup_seq {A} (a : list A) (n : nat) :
  (n ≤ length a)%nat → omap (λ i, a !! i) (seq 0 n) = take n a.
Proof.
  induction n as [|n IH]; intros Hn; [done|].
  rewrite seq_S, omap_app, IH by lia. simpl.
  destruct (lookup_lt_is_Some_2 a n) as [x Hx]; [lia|].
  rewrite Hx. simpl. by rewrite (take_S_r _ _ _ Hx).
Qed.

Lemma zip_omap_lookup {A B} (a : list A) (b : list B) (indices : list nat) :
  Forall (λ i, (i < length a)%nat) indices →
  Forall (λ i, (i < length b)%nat) indices →
  zip (omap (λ i, a !! i) indices) (omap (λ i, b !! i) indices) =
    omap (λ i, zip a b !! i) indices.
Proof.
  induction 1 as [|i indices Hi _ IH]; intros Hb; [done|].
  apply Forall_cons in Hb as [Hib Hb].
  destruct (lookup_lt_is_Some_2 a i Hi) as [x Hx].
  destruct (lookup_lt_is_Some_2 b i Hib) as [y Hy].
  assert (Hz : zip a b !! i = Some (x, y)).
  { apply lookup_zip_with_Some. eauto. }
  csimpl. rewrite Hx, Hy, Hz. csimpl. f_equal. by apply IH.
Qed.

Lemma permutation_in_range (indices : list nat) (n m : nat) :
  indices ≡ₚ seq 0 n → (n ≤ m)%nat → Forall (λ i, (i < m)%nat) indices.
Proof.
  intros Hp Hn. apply Forall_forall. intros i Hi.
  rewrite Hp in Hi. apply elem_of_seq in Hi. lia.
Qed.

Section Shuffled.

Context {Row : Type}.
Variable permutation : Z → nat → list nat.

(** What a shuffle with enough feature rows leaves in the model. *)
Lemma shuffle_data_shuffles (seed : Z) (model : Model (list Row)) :
  permutation seed (length (y_train model)) ≡ₚ seq 0 (length (y_train model)) →
  (length (y_train model) ≤ length (X_train model))%nat →
  ∃ X y,
    shuffle_data permutation seed true model =
      (ok tt, {| specs := specs model; X_train := X; y_train := y |}) ∧
    y ≡ₚ y_train model ∧
    X ≡ₚ take (length (y_train model)) (X_train model) ∧
    zip X y ≡ₚ zip (X_train model) (y_train model).
Proof.
  intros Hp Hlen. set (n := length (y_train model)) in *.
  pose proof (permutation_in_range _ _ _ Hp Hlen) as HX.
  pose proof (permutation_in_range _ n n Hp (le_n _)) as Hy.
  unfold shuffle_data. fold n.
  rewrite (take_rows_in_range _ _ HX), (take_rows_in_range _ _ Hy).
  eexists _, _. split; [reflexivity|]. split; [|split].
  - rewrite Hp, omap_lookup_seq by done. unfold n. by rewrite firstn_all.
  - by rewrite Hp, omap_lookup_seq.
  - rewrite zip_omap_lookup by done. rewrite Hp.
    rewrite omap_lookup_seq.
    + rewrite take_ge; [done|]. rewrite length_zip_with. lia.
    + rewrite length_zip_with. lia.
Qed.

End Shuffled.

(** X4: with at least as many feature rows as labels, a shuffle returns;
    the labels are a permutation of the old ones, the features a
    permutation of the first [len(y)] old rows, and every row keeps its
    label: the pairs (row, label) are the old pairs in another order. *)
Theorem shuffle_data_keeps_rows_paired {Row : Type}
    (permutation : Z → nat → list nat) (seed : Z) (model : Model (list Row)) :
  permutation seed (length (y_train model)) ≡ₚ seq 0 (length (y_train model)) →
  (length (y_train model) ≤ length (X_train model))%nat →
  ∃ X y,
    shuffle_data permutation seed true model =
      (ok tt, {| specs := specs model; X_train := X; y_train := y |}) ∧
    y ≡ₚ y_train model ∧
    X ≡ₚ take (length (y_train model)) (X_train model) ∧
    zip X y ≡ₚ zip (X_train model) (y_train model) ∧
    length X = length (y_train model) ∧
    length y = length (y_train model).
Proof.
  intros Hp Hlen.
  destruct (shuffle_data_shuffles permutation seed model Hp Hlen)
    as (X & y & E & Hy & HX & Hz).
  exists X, y. repeat split; try done.
  - rewrite HX, length_take. lia.
  - by rewrite Hy.
Qed.

Lemma shuffle_data_keeps_rows_paired_witness :
  ∃ X y,
    shuffle_data backwards 7 true (rows_model [[1%Q]; [2%Q]; [3%Q]] [0; 1; 0]) =
      (ok tt, {| specs := specs (rows_model [[1%Q]; [2%Q]; [3%Q]] [0; 1; 0]);
                 X_train := X; y_train := y |}) ∧
    zip X y ≡ₚ zip [[1%Q]; [2%Q]; [3%Q]] [0; 1; 0].
Proof.
  destruct (shuffle_data_keeps_rows_paired backwards 7
              (rows_model [[1%Q]; [2%Q]; [3%Q]] [0; 1; 0]))
    as (X & y & E & _ & _ & Hz & _).
  - apply reverse_Permutation.
  - simpl. lia.
  - exists X, y. split; [exact E|exact Hz].
Defined.

(** X5: with fewer feature rows than labels a shuffle fails with an
    [IndexError] at the features, and the model is left as it was. *)
Theorem shuffle_data_short_features {Row : Type}
    (permutation : Z → nat → list nat) (seed : Z) (model : Model (list Row)) :
  permutation seed (length (y_train model)) ≡ₚ seq 0 (length (y_train model)) →
  (length (X_train model) < length (y_train model))%nat →
  shuffle_data permutation seed true model = (raise IndexError, model).
Proof.
  intros Hp Hlen. unfold shuffle_data.
  rewrite (take_rows_out_of_range (X_train model) _ (length (X_train model)));
    [done| |done].
  rewrite Hp. apply elem_of_seq. lia.
Qed.

Lemma shuffle_data_short_features_witness :
  shuffle_data backwards 7 true (rows_model [[1%Q]] [0; 1; 0]) =
    (raise IndexError, rows_model [[1%Q]] [0; 1; 0]).
Proof.
  apply shuffle_data_short_features.
  - apply reverse_Permutation.
  - simpl. lia.
Defined.

(** X6: a model without labels loses its features in a shuffle: the index
    array has the size of [y_train], so that no row is taken. *)
Theorem shuffle_data_without_labels {Row : Type}
    (permutation : Z → nat → list nat) (seed : Z) (model : Model (list Row)) :
  y_train model = [] →
  permutation seed 0%nat = [] →
  shuffle_data permutation seed true model =
    (ok tt, {| specs := specs model; X_train := []; y_train := [] |}).
Proof.
  intros Hy Hp. unfold shuffle_data. rewrite Hy. simpl. rewrite Hp. reflexivity.
Qed.

Lemma shuffle_data_without_labels_witness :
  shuffle_data backwards 7 true (rows_model [[1%Q]; [2%Q]] []) =
    (ok tt, {| specs := specs (rows_model [[1%Q]; [2%Q]] []);
               X_train := []; y_train := [] |}).
Proof.
  exact (shuffle_data_without_labels backwards 7 (rows_model [[1%Q]; [2%Q]] [])
           eq_refl eq_refl).
Defined.

(** X7: shuffling before sampling does not change the ratio that
    [sample_data] estimates, nor whether the estimation fails: whether the
    shuffle is switched on or off, returns or raises, the labels left in
    the model give the same result. *)
Theorem shuffle_data_keeps_ratio {Row : Type}
    (permutation : Z → nat → list nat) (seed : Z) (shuffle : bool)
    (model : Model (list Row)) (r : Q) (t : Z) :
  permutation seed (length (y_train model)) ≡ₚ seq 0 (length (y_train model)) →
  calculate_ratio r (y_train (shuffle_data permutation seed shuffle model).2) t =
    calculate_ratio r (y_train model) t.
Proof.
  intros Hp. destruct shuffle; [|done].
  destruct (decide (length (y_train model) ≤ length (X_train model))%nat) as [Hle|Hgt].
  - destruct (shuffle_data_shuffles permutation seed model Hp Hle)
      as (X & y & -> & Hy & _). simpl.
    unfold calculate_ratio. by rewrite (np_unique_Permutation _ _ Hy).
  - unfold shuffle_data.
    rewrite (take_rows_out_of_range (X_train model) _ (length (X_train model)));
      [done| |done].
    rewrite Hp. apply elem_of_seq. lia.
Qed.

Lemma shuffle_data_keeps_ratio_witness :
  calculate_ratio 0
    (y_train (shuffle_data backwards 7 true
                (rows_model [[1%Q]; [2%Q]; [3%Q]] [0; 1; 0])).2) 1 =
    calculate_ratio 0 [0; 1; 0] 1.
Proof.
  apply (shuffle_data_keeps_ratio backwards 7 true
           (rows_model [[1%Q]; [2%Q]; [3%Q]] [0; 1; 0]) 0 1).
  apply reverse_Permutation.
Defined.

(** ** Loading a partition *)

Lemma labelled_drop_label (t : string) (df : Columns) :
  labelled t (drop_label t df) = [].
Proof.
  unfold labelled, drop_label, Columns. induction df as [|c df IH]; [done|].
  rewrite filter_cons.
  destruct (decide (c.1 ≠ t)) as [Hne|_]; [|done].
  rewrite filter_cons. by destruct (decide (c.1 = t)).
Qed.

Lemma drop_label_absent (t : string) (df : Columns) :
  labelled t df = [] → drop_label t df = df.
Proof.
  unfold labelled, drop_label, Columns. induction df as [|c df IH]; [done|].
  rewrite !filter_cons.
  destruct (decide (c.1 = t)) as [|Hne]; [done|].
  intros H. rewrite decide_True by done. by rewrite IH.
Qed.

Lemma labelled_elem_of (name : string) (df : Columns) (c : string * list cell) :
  c ∈ labelled name df ↔ c.1 = name ∧ c ∈ df.
Proof. unfold labelled, Columns. by rewrite list_elem_of_filter. Qed.

Lemma select_ok (names : list string) (df X : Columns) :
  select names df = ok X →
  X = flat_map (λ name, labelled name df) names ∧
  Forall (λ name, labelled name df ≠ []) names.
Proof.
  revert X. induction names as [|name names IH]; intros X; simpl.
  - intros [= <-]. by split.
  - destruct (labelled name df) as [|c cs] eqn:E; [done|].
    destruct (select names df) as [e|rest]; simpl; [done|].
    intros [= <-]. destruct (IH rest eq_refl) as [-> Hall].
    split; [done|]. constructor; [|done]. by rewrite E.
Qed.

Lemma select_missing (names : list string) (df : Columns) (name : string) :
  name ∈ names → labelled name df = [] →
  ∃ missing, select names df = raise (KeyError missing) ∧
             missing ∈ names ∧ labelled missing df = [].
Proof.
  intros Hin Hnone. induction names as [|n names IH]; [by apply elem_of_nil in Hin|].
  simpl. destruct (labelled n df) as [|c cs] eqn:E.
  - exists n. split; [done|]. split; [left|done].
  - assert (Hin' : name ∈ names).
    { apply elem_of_cons in Hin as [->|]; [|done]. by rewrite Hnone in E. }
    destruct (IH Hin') as (m & -> & Hm & Hl). exists m.
    split; [done|]. split; [by right|done].
Qed.

Section Loaded.

Context {Partition : Type}.
Variable datasets : Partition → string.
Variable SSEP : string.
Variable read_frame : string → string → string → string → Columns.
Variable fit_transform : list cell → list cell.

(** What a call of [get_data] that returns has done to the frame read. *)
Lemma get_data_ok_inv (specs : Load.Specs) (partition : Partition)
    (X : Columns) (y : list cell) :
  get_data datasets SSEP read_frame fit_transform specs partition = ok (X, y) →
  let df := input_frame datasets SSEP read_frame specs partition in
  let t := Load.target specs in
  match Load.features specs with
  | WILDCARD => X = drop_label t df
  | feature_list names => select names (drop_label t df) = ok X
  end ∧
  (labelled t df = [] ∧ y = [] ∨
   ∃ l values,
     labelled t df = [(l, values)] ∧
     y = if (0 <? length (filter (λ c, isnull c = true) values))%nat then []
         else match Load.model_type specs with
              | classification => fit_transform values
              | other_model_type => values
              end).
Proof.
  intros H. cbv zeta. unfold input_frame. unfold get_data in H.
  set (df := read_frame _ _ _ _) in *. set (t := Load.target specs) in *.
  destruct (labelled t df) as [|[l values] [|c cs]] eqn:E; simpl in H; [| |done].
  - rewrite (drop_label_absent t df E).
    destruct (Load.features specs) as [|names]; simpl in H.
    + injection H as <- <-. split; [done|]. by left.
    + destruct (select names df) as [e|X'] eqn:Es; simpl in H; [done|].
      injection H as <- <-. split; [done|]. by left.
  - destruct (Load.features specs) as [|names]; simpl in H.
    + injection H as <- <-. split; [done|]. right. by exists l, values.
    + destruct (select names (drop_label t df)) as [e|X'] eqn:Es; simpl in H; [done|].
      injection H as <- <-. split; [done|]. right. by exists l, values.
Qed.

Lemma get_data_columns_sub (specs : Load.Specs) (partition : Partition)
    (X : Columns) (y : list cell) :
  get_data datasets SSEP read_frame fit_transform specs partition = ok (X, y) →
  ∀ c, c ∈ X →
    c.1 ≠ Load.target specs ∧
    c ∈ input_frame datasets SSEP read_frame specs partition.
Proof.
  intros H. destruct (get_data_ok_inv _ _ _ _ H) as [HX _].
  assert (Hsub : ∀ c, c ∈ X →
            c ∈ drop_label (Load.target specs)
                  (input_frame datasets SSEP read_frame specs partition)).
  { destruct (Load.features specs) as [|names]; [by subst X|].
    apply select_ok in HX as [-> _]. intros c Hc.
    apply list_elem_of_In, in_flat_map in Hc as (name & _ & Hc).
    apply list_elem_of_In, labelled_elem_of in Hc. tauto. }
  intros c Hc. apply Hsub in Hc.
  unfold drop_label, Columns in Hc. by apply list_elem_of_filter in Hc.
Qed.

(** X8: the features returned never contain a column labelled as the
    target; they are columns of the frame read, and under the wildcard they
    are all its columns but the target, in the order of the file. *)
Theorem features_exclude_target (specs : Load.Specs) (partition : Partition)
    (X : Columns) (y : list cell) :
  get_data datasets SSEP read_frame fit_transform specs partition = ok (X, y) →
  let df := input_frame datasets SSEP read_frame specs partition in
  (Load.target specs ∉ map fst X) ∧
  (∀ c, c ∈ X → c ∈ df) ∧
  (Load.features specs = WILDCARD → X = drop_label (Load.target specs) df).
Proof.
  intros H df. pose proof (get_data_columns_sub _ _ _ _ H) as Hsub.
  split; [|split].
  - intros Hin. apply list_elem_of_In, in_map_iff in Hin as (c & Hc1 & Hc).
    apply list_elem_of_In, Hsub in Hc as [Hne _]. done.
  - intros c Hc. by apply Hsub in Hc as [_ ?].
  - intros E. destruct (get_data_ok_inv _ _ _ _ H) as [HX _]. by rewrite E in HX.
Qed.

Lemma labelled_sub (name t : string) (df : Columns) :
  labelled name df = [] → labelled name (drop_label t df) = [].
Proof.
  intros H. destruct (labelled name (drop_label t df)) as [|c cs] eqn:E; [done|].
  assert (Hc : c ∈ labelled name (drop_label t df)) by (rewrite E; left).
  apply labelled_elem_of in Hc as [Hn Hc].
  unfold drop_label, Columns in Hc. apply list_elem_of_filter in Hc as [_ Hc].
  assert (Hc' : c ∈ labelled name df) by (by apply labelled_elem_of).
  rewrite H in Hc'. by apply elem_of_nil in Hc'.
Qed.

(** X9: with a list of features, a label of the list that no column of
    the file carries makes [get_data] raise a [KeyError]; so does the
    target itself when it is listed, because its column is removed before
    the features are selected. *)
Theorem missing_feature_raises (specs : Load.Specs) (partition : Partition)
    (names : list string) (name : string) :
  let df := input_frame datasets SSEP read_frame specs partition in
  let t := Load.target specs in
  Load.features specs = feature_list names →
  (length (labelled t df) ≤ 1)%nat →
  name ∈ names →
  name = t ∨ labelled name df = [] →
  ∃ missing,
    get_data datasets SSEP read_frame fit_transform specs partition =
      raise (KeyError missing) ∧
    missing ∈ names ∧ labelled missing (drop_label t df) = [].
Proof.
  intros df t Hf Hlen Hin Hname.
  assert (Hnone : labelled name (drop_label t df) = []).
  { destruct Hname as [->|Hnone]; [apply labelled_drop_label|by apply labelled_sub]. }
  destruct (select_missing names (drop_label t df) name Hin Hnone)
    as (missing & Hsel & Hm & Hl).
  exists missing. split; [|done].
  unfold get_data. fold (input_frame datasets SSEP read_frame specs partition).
  fold df t. rewrite Hf.
  destruct (labelled t df) as [|[l values] [|c cs]] eqn:E; simpl in Hlen; [| |lia].
  - simpl. rewrite <- (drop_label_absent t df E). by rewrite Hsel.
  - simpl. by rewrite Hsel.
Qed.

Lemma labelled_NoDup (name : string) (df : Columns) :
  NoDup (map fst df) → labelled name df ≠ [] →
  ∃ values, labelled name df = [(name, values)].
Proof.
  unfold labelled, Columns. induction df as [|[n v] df IH]; [done|].
  simpl map. rewrite NoDup_cons. intros [Hn Hnd].
  rewrite filter_cons. simpl. destruct (decide (n = name)) as [->|Hne].
  - intros _. exists v. f_equal.
    destruct (filter (λ c, c.1 = name) df) as [|c cs] eqn:E; [done|].
    assert (Hc : c ∈ filter (λ c, c.1 = name) df) by (rewrite E; left).
    apply list_elem_of_filter in Hc as [Hc1 Hc].
    exfalso. apply Hn. apply list_elem_of_In, in_map_iff.
    exists c. split; [done|]. by apply list_elem_of_In.
  - by apply IH.
Qed.

Lemma drop_label_NoDup (t : string) (df : Columns) :
  NoDup (map fst df) → NoDup (map fst (drop_label t df)).
Proof.
  unfold drop_label, Columns. induction df as [|c df IH]; [done|].
  simpl map. rewrite NoDup_cons. intros [Hn Hnd].
  rewrite filter_cons. destruct (decide (c.1 ≠ t)); [|by apply IH].
  simpl map. apply NoDup_cons. split; [|by apply IH].
  intros Hin. apply Hn.
  apply list_elem_of_In, in_map_iff in Hin as (c' & Hc1 & Hc').
  apply list_elem_of_In, list_elem_of_filter in Hc' as [_ Hc'].
  apply list_elem_of_In, in_map_iff. exists c'. split; [done|].
  by apply list_elem_of_In.
Qed.

(** X10: when the labels of the file are distinct, the features selected
    by a list come out under exactly the labels of the list, in the order
    of the list and not of the file. *)
Theorem feature_list_order (specs : Load.Specs) (partition : Partition)
    (names : list string) (X : Columns) (y : list cell) :
  NoDup (map fst (input_frame datasets SSEP read_frame specs partition)) →
  Load.features specs = feature_list names →
  get_data datasets SSEP read_frame fit_transform specs partition = ok (X, y) →
  map fst X = names.
Proof.
  intros Hnd Hf H. destruct (get_data_ok_inv _ _ _ _ H) as [HX _].
  rewrite Hf in HX. apply select_ok in HX as [-> Hall].
  apply (drop_label_NoDup (Load.target specs)) in Hnd.
  clear H Hf.
  induction Hall as [|name names Hname _ IH]; [done|].
  simpl. rewrite map_app, IH.
  destruct (labelled_NoDup name _ Hnd Hname) as [values ->]. done.
Qed.

(** X11: on a frame whose columns all have the same number of rows, labels
    that are returned have one entry per row of the features (the encoder
    keeping the number of labels): [len(X) == len(y)] whenever [y] is not
    empty. *)
Theorem features_match_labels (specs : Load.Specs) (partition : Partition)
    (n : nat) (X : Columns) (y : list cell) :
  rectangular n (input_frame datasets SSEP read_frame specs partition) →
  (∀ l, length (fit_transform l) = length l) →
  get_data datasets SSEP read_frame fit_transform specs partition = ok (X, y) →
  y ≠ [] →
  length y = n ∧ rectangular (length y) X.
Proof.
  intros Hrect Hfit H Hy.
  destruct (get_data_ok_inv _ _ _ _ H) as [_ [[_ ->]|(l & values & Hl & Hyv)]];
    [done|].
  assert (Hlen : length y = n).
  { assert (Hin : (l, values) ∈
              labelled (Load.target specs)
                (input_frame datasets SSEP read_frame specs partition))
      by (rewrite Hl; left).
    apply labelled_elem_of in Hin as [_ Hin].
    unfold rectangular in Hrect. rewrite Forall_forall in Hrect.
    specialize (Hrect _ Hin). simpl in Hrect.
    destruct (0 <? _)%nat; [by subst y|].
    destruct (Load.model_type specs); subst y; by rewrite ?Hfit. }
  split; [done|]. rewrite Hlen.
  pose proof (get_data_columns_sub _ _ _ _ H) as Hsub.
  unfold rectangular in *. rewrite Forall_forall in *.
  intros c Hc. apply Hrect. by apply Hsub.
Qed.

End Loaded.

Lemma features_exclude_target_witness :
  ∃ X y,
    get_data file_of "/" files flat_encoder
      (load_specs (feature_list ["b"; "a"]) classification) true = ok (X, y) ∧
    ("y" ∉ map fst X).
Proof.
  eexists _, _. split; [reflexivity|].
  exact (proj1 (features_exclude_target file_of "/" files flat_encoder
           (load_specs (feature_list ["b"; "a"]) classification) true _ _ eq_refl)).
Defined.

Lemma missing_feature_raises_witness :
  ∃ missing,
    get_data file_of "/" files flat_encoder
      (load_specs (feature_list ["b"; "y"]) classification) true =
      raise (KeyError missing) ∧
    missing ∈ ["b"; "y"].
Proof.
  destruct (missing_feature_raises file_of "/" files flat_encoder
              (load_specs (feature_list ["b"; "y"]) classification) true
              ["b"; "y"] "y" eq_refl) as (missing & E & Hm & _).
  - simpl. lia.
  - right. left.
  - by left.
  - exists missing. split; [exact E|exact Hm].
Defined.

Lemma feature_list_order_witness :
  ∃ X y,
    get_data file_of "/" files flat_encoder
      (load_specs (feature_list ["b"; "a"]) other_model_type) true = ok (X, y) ∧
    map fst X = ["b"; "a"].
Proof.
  eexists _, _. split; [reflexivity|].
  refine (feature_list_order file_of "/" files flat_encoder
            (load_specs (feature_list ["b"; "a"]) other_model_type) true
            ["b"; "a"] _ _ _ eq_refl eq_refl).
  by apply (bool_decide_unpack _).
Defined.

Lemma features_match_labels_witness :
  ∃ X y,
    get_data file_of "/" files flat_encoder
      (load_specs WILDCARD classification) true = ok (X, y) ∧
    length y = 3%nat ∧ rectangular (length y) X.
Proof.
  eexists _, _. split; [reflexivity|].
  refine (features_match_labels file_of "/" files flat_encoder
            (load_specs WILDCARD classification) true 3 _ _ _ _ eq_refl _).
  - repeat constructor.
  - intros l. apply length_map.
  - discriminate.
Defined.

(** X12: an unknown value in the target column switches the labels off:
    [y] comes back empty whatever the model type is, the encoder is not
    applied, and the target column is removed from the features all the
    same. *)
Theorem unknown_target_drops_labels {Partition : Type}
    (datasets : Partition → string) (SSEP : string)
    (read_frame : string → string → string → string → Columns)
    (fit_transform : list cell → list cell)
    (specs : Load.Specs) (partition : Partition) (l : string)
    (values : list cell) :
  let df := input_frame datasets SSEP read_frame specs partition in
  labelled (Load.target specs) df = [(l, values)] →
  NaN_cell ∈ values →
  (∀ X y,
     get_data datasets SSEP read_frame fit_transform specs partition = ok (X, y) →
     y = []) ∧
  (Load.features specs = WILDCARD →
   get_data datasets SSEP read_frame fit_transform specs partition =
     ok (drop_label (Load.target specs) df, [])).
Proof.
  intros df Hl Hnan.
  assert (Hcount : (0 <? length (filter (λ c, isnull c = true) values))%nat = true).
  { apply Nat.ltb_lt.
    assert (Hin : NaN_cell ∈ filter (λ c, isnull c = true) values)
      by (by apply list_elem_of_filter).
    destruct (filter _ values); [by apply elem_of_nil in Hin|simpl; lia]. }
  split.
  - intros X y H.
    destruct (get_data_ok_inv _ _ _ _ _ _ _ _ H) as [_ [[Habs _]|(l' & v' & Hl' & ->)]].
    + fold df in Habs. by rewrite Hl in Habs.
    + fold df in Hl'. rewrite Hl in Hl'. injection Hl' as <- <-.
      by rewrite Hcount.
  - intros Hf. unfold get_data.
    fold (input_frame datasets SSEP read_frame specs partition). fold df.
    rewrite Hl, Hf. simpl. by rewrite Hcount.
Qed.

Lemma unknown_target_drops_labels_witness :
  get_data file_of "/" files flat_encoder
    (load_specs WILDCARD classification) false =
    ok ([("a", [Num 4; Num 5]); ("b", [Str "u"; Str "v"])], []).
Proof.
  refine (proj2 (unknown_target_drops_labels file_of "/" files flat_encoder
            (load_specs WILDCARD classification) false "y" [Num 1; NaN_cell]
            eq_refl _) eq_refl).
  right. left.
Defined.

(** ** The intraday request *)

Lemma upper_char_idem (c : ascii) :
  (if is_lower (if is_lower c then shift_char (-32) c else c)
   then shift_char (-32) (if is_lower c then shift_char (-32) c else c)
   else (if is_lower c then shift_char (-32) c else c)) =
  (if is_lower c then shift_char (-32) c else c).
Proof. destruct c as [[] [] [] [] [] [] [] []]; reflexivity. Qed.

Lemma upper_lower_char (c : ascii) :
  (if is_lower (if is_upper c then shift_char 32 c else c)
   then shift_char (-32) (if is_upper c then shift_char 32 c else c)
   else (if is_upper c then shift_char 32 c else c)) =
  (if is_lower c then shift_char (-32) c else c).
Proof. destruct c as [[] [] [] [] [] [] [] []]; reflexivity. Qed.

Lemma upper_upper (s : string) : upper (upper s) = upper s.
Proof.
  unfold upper. induction s as [|c s IH]; [done|].
  simpl. by rewrite upper_char_idem, IH.
Qed.

Lemma upper_lower (s : string) : upper (lower s) = upper s.
Proof.
  unfold upper, lower. induction s as [|c s IH]; [done|].
  simpl. by rewrite upper_lower_char, IH.
Qed.

(** X13: the case of the symbol does not matter to [get_google_data]: the
    symbol, its upper-case and its lower-case form give the same request
    and the same result. *)
Theorem get_google_data_ignores_case (strftime_date : Q → string)
    (requests_get : Url → string) (symbol : string) (lookback_period : Z)
    (fractal : string) :
  get_google_data strftime_date requests_get (upper symbol) lookback_period fractal =
    get_google_data strftime_date requests_get symbol lookback_period fractal ∧
  get_google_data strftime_date requests_get (lower symbol) lookback_period fractal =
    get_google_data strftime_date requests_get symbol lookback_period fractal.
Proof.
  unfold get_google_data. by rewrite upper_upper, upper_lower.
Qed.

(** X14: a lookback of more than 50 days is cut to 50: every lookback from
    50 upwards gives the request and the result of 50. *)
Theorem lookback_capped_at_50 (strftime_date : Q → string)
    (requests_get : Url → string) (symbol : string) (lookback_period : Z)
    (fractal : string) :
  50 ≤ lookback_period →
  get_google_data strftime_date requests_get symbol lookback_period fractal =
    get_google_data strftime_date requests_get symbol 50 fractal.
Proof.
  intros H. unfold get_google_data.
  destruct (Z.gtb_spec lookback_period 50) as [Hgt|Hle]; [done|].
  by replace lookback_period with 50 by lia.
Qed.

Lemma lookback_capped_at_50_witness :
  get_google_data utc_date (serve feed_three) "aapl" 365 "5m" =
    get_google_data utc_date (serve feed_three) "aapl" 50 "5m".
Proof.
  apply lookback_capped_at_50. lia.
Defined.

(** X15: a response without a single six-field data line -- an empty
    response, one that ends with the preamble, or one with malformed lines
    only -- gives the empty table and no error. *)
Theorem no_data_lines_empty_frame (strftime_date : Q → string)
    (requests_get : Url → string) (symbol : string) (lookback_period : Z)
    (fractal digits : string) (minutes : Z) :
  getitem (findall_digits None fractal) 0 = ok digits →
  int digits = ok minutes →
  Forall (λ l, length (split "," l) ≠ 6%nat)
    (data_lines requests_get symbol lookback_period (60 * minutes)) →
  get_google_data strftime_date requests_get symbol lookback_period fractal =
    ok empty_frame.
Proof.
  intros Hd Hm Hskip.
  rewrite (get_google_data_interval _ _ _ _ _ _ _ Hd Hm).
  rewrite <- (app_nil_r (data_lines _ _ _ _)).
  by rewrite parse_lines_skips.
Qed.

Lemma no_data_lines_empty_frame_witness :
  get_google_data utc_date (serve ["1,2,3"; ""]) "aapl" 10 "5m" = ok empty_frame.
Proof.
  refine (no_data_lines_empty_frame utc_date (serve ["1,2,3"; ""]) "aapl" 10
            "5m" "5" 5 eq_refl eq_refl _).
  repeat constructor; discriminate.
Defined.

Lemma mapM_length {A B} (f : A → result B) (xs : list A) (ys : list B) :
  mapM f xs = ok ys → length ys = length xs.
Proof.
  revert ys. induction xs as [|x xs IH]; intros ys; simpl.
  - by intros [= <-].
  - destruct (f x) as [e|y]; simpl; [done|].
    destruct (mapM f xs) as [e|ys']; simpl; [done|].
    intros [= <-]. simpl. by rewrite (IH ys').
Qed.

Lemma parse_lines_length (strftime_date : Q → string) (interval : Z)
    (text : list string) :
  ∀ d acc rs,
    parse_lines strftime_date interval d acc text = ok rs →
    length rs =
      (length acc + length (filter (λ l, length (split "," l) = 6%nat) text))%nat.
Proof.
  induction text as [|line text IH]; intros d acc rs.
  - simpl. intros [= <-]. lia.
  - rewrite filter_cons. cbn [parse_lines]. rewrite parse_line_classify.
    pose proof (classify_skipped line) as Hs.
    destruct (classify line) as [|b|o|e]; simpl; try done.
    + intros H. apply IH in H. rewrite decide_False by (by apply Hs). done.
    + intros H. apply IH in H. rewrite length_app in H. simpl in H.
      destruct (decide (length (split "," line) = 6%nat)) as [|Hne];
        [simpl; lia|]. by apply Hs in Hne.
    + destruct d as [day|]; simpl; [|done].
      intros H. apply IH in H. rewrite length_app in H. simpl in H.
      destruct (decide (length (split "," line) = 6%nat)) as [|Hne];
        [simpl; lia|]. by apply Hs in Hne.
Qed.

(** X16: a frame returned by [get_google_data] has one row for each data
    line of six fields, and its index and all its seven columns have that
    length. *)
Theorem frame_has_a_row_per_line (strftime_date : Q → string)
    (requests_get : Url → string) (symbol : string) (lookback_period : Z)
    (fractal digits : string) (minutes : Z) (df : DataFrame) :
  getitem (findall_digits None fractal) 0 = ok digits →
  int digits = ok minutes →
  get_google_data strftime_date requests_get symbol lookback_period fractal = ok df →
  let n := length (filter (λ l, length (split "," l) = 6%nat)
                     (data_lines requests_get symbol lookback_period (60 * minutes))) in
  length (df_index df) = n ∧ length (df_open df) = n ∧
  length (df_high df) = n ∧ length (df_low df) = n ∧
  length (df_close df) = n ∧ length (df_volume df) = n ∧
  length (df_bar_number df) = n ∧ length (df_end_of_day df) = n.
Proof.
  intros Hd Hm H n.
  rewrite (get_google_data_interval _ _ _ _ _ _ _ Hd Hm) in H.
  destruct (parse_lines _ _ _ _ _) as [e|records] eqn:E; simpl in H; [done|].
  apply parse_lines_length in E. simpl in E. fold n in E.
  unfold make_frame in H.
  destruct (mapM float (map r_open _)) as [?|opens] eqn:E1; simpl in H; [done|].
  destruct (mapM float (map r_high _)) as [?|highs] eqn:E2; simpl in H; [done|].
  destruct (mapM float (map r_low _)) as [?|lows] eqn:E3; simpl in H; [done|].
  destruct (mapM float (map r_close _)) as [?|closes] eqn:E4; simpl in H; [done|].
  destruct (mapM int (map r_volume _)) as [?|volumes] eqn:E5; simpl in H; [done|].
  apply mapM_length in E1, E2, E3, E4, E5. rewrite length_map in *.
  injection H as <-. simpl.
  rewrite cumcount_length, loc_set_length, length_replicate, !length_map.
  repeat split; congruence.
Qed.

Lemma frame_has_a_row_per_line_witness :
  ∃ df, get_google_data utc_date (serve feed_malformed) "aapl" 10 "5m" = ok df ∧
        length (df_index df) = 2%nat ∧ length (df_end_of_day df) = 2%nat.
Proof.
  eexists. split; [reflexivity|].
  destruct (frame_has_a_row_per_line utc_date (serve feed_malformed) "aapl" 10
              "5m" "5" 5 _ eq_refl eq_refl eq_refl) as (H1 & _ & _ & _ & _ & _ & _ & H8).
  exact (conj H1 H8).
Defined.

(** ** One closing bar per day *)

Lemma last_occurrence (k : string) (l : list string) :
  k ∈ l → ∃ i, l !! i = Some k ∧ k ∉ drop (S i) l.
Proof.
  induction l as [|x l IH]; intros Hin; [by apply elem_of_nil in Hin|].
  destruct (decide (k ∈ l)) as [Hl|Hnl].
  - destruct (IH Hl) as (i & Hi & Hnot). by exists (S i).
  - apply elem_of_cons in Hin as [->|]; [|done]. by exists 0%nat.
Qed.

Lemma not_in_drop_later (k : string) (l : list string) (i j : nat) :
  k ∉ drop (S i) l → l !! j = Some k → (j ≤ i)%nat.
Proof.
  intros Hnot Hj. destruct (decide (j ≤ i)%nat) as [|Hgt]; [done|].
  exfalso. apply Hnot. apply list_elem_of_lookup. exists (j - S i)%nat.
  rewrite lookup_drop. by replace (S i + (j - S i))%nat with j by lia.
Qed.

Lemma count_up_to_last (k : string) (l : list string) (i : nat) :
  l !! i = Some k → k ∉ drop (S i) l →
  length (filter (λ k', k' = k) l) =
    S (length (filter (λ k', k' = k) (take i l))).
Proof.
  intros Hi Hnot.
  rewrite <- (take_drop_middle l i k Hi) at 1.
  rewrite filter_app, filter_cons, decide_True by done.
  rewrite length_app. simpl.
  assert (filter (λ k', k' = k) (drop (S i) l) = []) as ->; [|simpl; lia].
  destruct (filter _ (drop (S i) l)) as [|x xs] eqn:E; [done|].
  assert (Hx : x ∈ filter (λ k', k' = k) (drop (S i) l)) by (rewrite E; left).
  apply list_elem_of_filter in Hx as [-> Hx]. done.
Qed.

(** X17: every calendar date of the table has exactly one row marked as
    the end of the day, the last row of that date; its bar number is the
    number of rows of the date less one. *)
Theorem one_end_of_day_per_date (strftime_date : Q → string)
    (requests_get : Url → string) (symbol : string) (lookback_period : Z)
    (fractal : string) (df : DataFrame) (k : string) :
  get_google_data strftime_date requests_get symbol lookback_period fractal = ok df →
  let dates := map strftime_date (df_index df) in
  k ∈ dates →
  ∃ i,
    dates !! i = Some k ∧
    df_end_of_day df !! i = Some true ∧
    df_bar_number df !! i =
      Some (Z.of_nat (length (filter (λ k', k' = k) dates)) - 1) ∧
    ∀ j, dates !! j = Some k → df_end_of_day df !! j = Some true → j = i.
Proof.
  intros Hdf dates Hk.
  destruct (get_google_data_frame _ _ _ _ _ _ Hdf) as [Hbar Heod].
  fold dates in Hbar, Heod.
  destruct (last_occurrence k dates Hk) as (i & Hi & Hnot).
  exists i. split; [done|]. split; [|split].
  - rewrite Heod, (end_of_day_lookup _ _ _ Hi). by rewrite bool_decide_eq_true_2.
  - rewrite Hbar, (cumcount_lookup _ _ _ _ Hi).
    rewrite (count_up_to_last k dates i Hi Hnot). simpl. f_equal. lia.
  - intros j Hj Hjeod.
    rewrite Heod, (end_of_day_lookup _ _ _ Hj) in Hjeod.
    injection Hjeod as Hjeod. apply bool_decide_eq_true_1 in Hjeod.
    pose proof (not_in_drop_later k dates i j Hnot Hj).
    pose proof (not_in_drop_later k dates j i Hjeod Hi). lia.
Qed.

Lemma one_end_of_day_per_date_witness :
  ∃ df i,
    get_google_data utc_date (serve feed_three) "aapl" 10 "5m" = ok df ∧
    df_end_of_day df !! i = Some true ∧
    df_bar_number df !! i = Some (3 - 1).
Proof.
  eexists.
  destruct (one_end_of_day_per_date utc_date (serve feed_three) "aapl" 10 "5m"
              _ "2021-01-01" eq_refl) as (i & _ & H1 & H2 & _).
  - left.
  - exists i. split; [reflexivity|]. split; [exact H1|exact H2].
Defined.

(** ** The interval of a fractal *)

Lemma digit_not_space (c : ascii) (d : Z) :
  digit_val c = Some d →
  is_space c = false ∧ c ≠ "-"%char ∧ c ≠ "+"%char.
Proof.
  destruct c as [[] [] [] [] [] [] [] []]; vm_compute; intros H;
    try discriminate H; repeat split; discriminate.
Qed.

Lemma digit_val_nonneg (c : ascii) (d : Z) : digit_val c = Some d → 0 ≤ d.
Proof.
  unfold digit_val. destruct (_ && _) eqn:E; [|done].
  intros [= <-]. apply andb_prop in E as [E _]. lia.
Qed.

Lemma rstrip_all_digits (s : string) : all_digits s = true → rstrip s = s.
Proof.
  induction s as [|c s IH]; [done|]. simpl.
  intros H. apply andb_prop in H as [Hc Hs].
  apply bool_decide_eq_true in Hc as [d Hd].
  rewrite (IH Hs). destruct s; [|done].
  by destruct (digit_not_space c d Hd) as (-> & _).
Qed.

Lemma take_digits_all (s : string) :
  all_digits s = true →
  ∀ acc n, 0 ≤ acc →
    ∃ v, take_digits s acc n = (v, (n + String.length s)%nat, EmptyString) ∧ 0 ≤ v.
Proof.
  induction s as [|c s IH]; intros H acc n Hacc; simpl.
  - exists acc. by rewrite Nat.add_0_r.
  - simpl in H. apply andb_prop in H as [Hc Hs].
    apply bool_decide_eq_true in Hc as [d Hd]. rewrite Hd.
    pose proof (digit_val_nonneg c d Hd).
    destruct (IH Hs (10 * acc + d) (S n)) as (v & -> & Hv); [lia|].
    exists v. split; [|done]. do 2 f_equal. lia.
Qed.

Lemma int_all_digits (s : string) :
  all_digits s = true → s ≠ EmptyString → ∃ n, int s = ok n ∧ 0 ≤ n.
Proof.
  intros Hall Hne. unfold int, strip.
  destruct s as [|c s]; [done|].
  pose proof Hall as Hall'. simpl in Hall'.
  apply andb_prop in Hall' as [Hc Hs].
  apply bool_decide_eq_true in Hc as [d Hd].
  destruct (digit_not_space c d Hd) as (Hsp & Hminus & Hplus).
  assert (Hl : lstrip (String c s) = String c s) by (simpl; by rewrite Hsp).
  rewrite Hl, (rstrip_all_digits _ Hall).
  assert (Hsign : take_sign (String c s) = (false, String c s)).
  { unfold take_sign.
    destruct c as [[] [] [] [] [] [] [] []]; try reflexivity; done. }
  rewrite Hsign.
  destruct (take_digits_all (String c s) Hall 0 0%nat) as (v & -> & Hv); [lia|].
  simpl. eauto.
Qed.

Lemma all_digits_snoc (r : string) (c : ascii) :
  all_digits r = true → is_Some (digit_val c) →
  all_digits (r +:+ String c EmptyString) = true.
Proof.
  intros Hr Hc. induction r as [|x r IH]; simpl.
  - by rewrite bool_decide_eq_true_2.
  - simpl in Hr. apply andb_prop in Hr as [Hx Hr]. by rewrite Hx, IH.
Qed.

Lemma snoc_not_empty (r : string) (c : ascii) :
  r +:+ String c EmptyString ≠ EmptyString.
Proof. by destruct r. Qed.

Lemma findall_digits_runs (s : string) :
  ∀ run,
    (∀ r, run = Some r → all_digits r = true ∧ r ≠ EmptyString) →
    Forall (λ r, all_digits r = true ∧ r ≠ EmptyString) (findall_digits run s).
Proof.
  induction s as [|c s IH]; intros run Hrun; simpl.
  - destruct run as [r|]; [|constructor]. constructor; [by apply Hrun|constructor].
  - destruct (digit_val c) as [d|] eqn:Hd, run as [r|].
    + apply IH. intros r' [= <-]. destruct (Hrun r eq_refl) as [Hr _].
      split; [|apply snoc_not_empty]. apply all_digits_snoc; [done|by exists d].
    + apply IH. intros r' [= <-]. split; [|done].
      cbn [all_digits]. apply andb_true_intro. split; [|done].
      apply bool_decide_eq_true_2. by exists d.
    + constructor; [by apply Hrun|]. by apply IH.
    + by apply IH.
Qed.

Lemma findall_digits_none (s : string) :
  has_digit s = false → findall_digits None s = [].
Proof.
  induction s as [|c s IH]; [done|]. simpl.
  intros H. apply orb_false_elim in H as [Hc Hs].
  destruct (digit_val c) as [d|] eqn:Hd; [|by apply IH].
  apply bool_decide_eq_false in Hc. exfalso. apply Hc. eauto.
Qed.

Lemma findall_digits_some (s : string) :
  has_digit s = true → ∀ run, findall_digits run s ≠ [].
Proof.
  induction s as [|c s IH]; [done|]. simpl. intros H run.
  destruct (digit_val c) as [d|] eqn:Hd.
  - clear IH H. revert run. generalize (String c EmptyString).
    assert (Hgen : ∀ s run, is_Some run → findall_digits run s ≠ []).
    { clear. induction s as [|c s IH]; intros run [r ->]; simpl; [done|].
      destruct (digit_val c); [by apply IH|done]. }
    intros s0 [r|]; by apply Hgen.
  - rewrite bool_decide_eq_false_2 in H by (by intros [? ?]).
    simpl in H. destruct run as [r|]; [done|by apply IH].
Qed.

(** X18: the interval is derived from the first run of digits of the
    fractal: without a digit [get_google_data] raises an [IndexError] before
    any request is made; with one the derivation cannot fail, the number
    of minutes is not negative, and the rest of the function runs with an
    interval of 60 times that number.  (The limit that later versions of
    Python put on the length of an integer literal is not modelled.) *)
Theorem interval_of_fractal (strftime_date : Q → string)
    (requests_get : Url → string) (symbol : string) (lookback_period : Z)
    (fractal : string) :
  (has_digit fractal = false →
   get_google_data strftime_date requests_get symbol lookback_period fractal =
     raise IndexError) ∧
  (has_digit fractal = true →
   ∃ digits minutes,
     findall_digits None fractal !! 0%nat = Some digits ∧
     int digits = ok minutes ∧ 0 ≤ minutes ∧
     get_google_data strftime_date requests_get symbol lookback_period fractal =
       let* records :=
         parse_lines strftime_date (60 * minutes) None []
           (data_lines requests_get symbol lookback_period (60 * minutes)) in
       make_frame records).
Proof.
  split.
  - intros H. unfold get_google_data. by rewrite (findall_digits_none _ H).
  - intros H.
    pose proof (findall_digits_some fractal H None) as Hne.
    pose proof (findall_digits_runs fractal None) as Hruns.
    destruct (findall_digits None fractal) as [|digits runs] eqn:E; [done|].
    apply Forall_cons in Hruns as [[Hall Hnonempty] _]; [|done].
    destruct (int_all_digits digits Hall Hnonempty) as (minutes & Hint & Hpos).
    exists digits, minutes. split; [done|]. split; [done|]. split; [done|].
    apply (get_google_data_interval _ _ _ _ _ digits minutes); [|done].
    unfold getitem. by rewrite E.
Qed.

Lemma interval_of_fractal_witness :
  get_google_data utc_date (serve feed_three) "aapl" 10 "min" = raise IndexError.
Proof.
  exact (proj1 (interval_of_fractal utc_date (serve feed_three) "aapl" 10 "min")
           eq_refl).
Defined.

(** ** The daily frame *)






(** ** The two feeds of [get_feed_data] *)

Lemma feed_loop_ext
    (sd sd' : Q → string) (rg rg' : Url → string) (ns ne ns' ne' : Q)
    (DR DR' : string → string → Q → Q → result DailyFrame)
    (daily_data : bool) (gspace : Space) (lookback_period : Z)
    (items : list string) :
  (∀ item, feed_item sd rg ns ne DR daily_data gspace lookback_period item =
           feed_item sd' rg' ns' ne' DR' daily_data gspace lookback_period item) →
  ∀ w, feed_loop sd rg ns ne DR daily_data gspace lookback_period items w =
       feed_loop sd' rg' ns' ne' DR' daily_data gspace lookback_period items w.
Proof.
  intros Hext. induction items as [|item items IH]; intros w; [done|].
  simpl. rewrite Hext.
  destruct (feed_item sd' rg' ns' ne' DR' _ _ _ item); [done|]. apply IH.
Qed.

(** X21: the feed is chosen once for the whole group by the letter [d] in
    the fractal: with it, no intraday request is made -- the outcome is the
    same whatever the intraday backend and the time zone are; without it,
    the daily reader and the clock play no part. *)
Theorem one_feed_per_group
    (sd sd' : Q → string) (rg rg' : Url → string) (ns ne ns' ne' : Q)
    (DR DR' : string → string → Q → Q → result DailyFrame)
    (group : Group) (lookback_period : Z) (w : World) :
  (contains "d" (fractal (space group)) = true →
   get_feed_data sd rg ns ne DR group lookback_period w =
     get_feed_data sd' rg' ns ne DR group lookback_period w) ∧
  (contains "d" (fractal (space group)) = false →
   get_feed_data sd rg ns ne DR group lookback_period w =
     get_feed_data sd rg ns' ne' DR' group lookback_period w).
Proof.
  split; intros Hd; unfold get_feed_data; rewrite Hd.
  - by rewrite (feed_loop_ext sd sd' rg rg' ns ne ns ne DR DR).
  - by rewrite (feed_loop_ext sd sd rg rg ns ne ns' ne' DR DR').
Qed.

Lemma one_feed_per_group_witness :
  get_feed_data utc_date (serve feed_three) 0 0 yahoo_reader daily_symbols 10
    empty_world =
  get_feed_data utc_date corrupt_then_three 0 0 yahoo_reader daily_symbols 10
    empty_world.
Proof.
  exact (proj1 (one_feed_per_group utc_date utc_date (serve feed_three)
           corrupt_then_three 0 0 0 0 yahoo_reader yahoo_reader daily_symbols 10
           empty_world) eq_refl).
Defined.

Section Store.

Variable strftime_date : Q → string.
Variable requests_get : Url → string.
Variable now_start now_end : Q.
Variable DataReader : string → string → Q → Q → result DailyFrame.
Variable daily_data : bool.
Variable gspace : Space.
Variable lookback_period : Z.

(** What the loop does to the store and to the log, however it ends. *)
Lemma feed_loop_store (items : list string) :
  ∀ w,
    let w' := (feed_loop strftime_date requests_get now_start now_end DataReader
                 daily_data gspace lookback_period items w).2 in
    (∀ name, is_Some (frames w !! name) → is_Some (frames w' !! name)) ∧
    (∀ name t, frames w' !! name = Some t →
       frames w !! name = Some t ∨
       ∃ item, item ∈ items ∧ name = lower item ∧ (0 < len t)%nat ∧
               feed_item strftime_date requests_get now_start now_end DataReader
                 daily_data gspace lookback_period item = ok t) ∧
    log w `prefix_of` log w'.
Proof.
  induction items as [|item items IH]; intros w.
  - simpl. split; [done|]. split; [by left|done].
  - cbn [feed_loop].
    destruct (feed_item _ _ _ _ _ _ _ _ item) as [e|df] eqn:E.
    + simpl. split; [done|]. split; [by left|]. by apply prefix_app_r.
    + match goal with |- context [feed_loop _ _ _ _ _ _ _ _ items ?w2] =>
        specialize (IH w2); set (w2' := w2) in * end.
      destruct IH as (Hkeep & Hnew & Hlog). cbv zeta.
      assert (Hw2 : (∀ name, is_Some (frames w !! name) →
                             is_Some (frames w2' !! name)) ∧
                    (∀ name t, frames w2' !! name = Some t →
                       frames w !! name = Some t ∨
                       name = lower item ∧ (0 < len t)%nat ∧ df = t) ∧
                    log w `prefix_of` log w2').
      { subst w2'. destruct (0 <? len df)%nat eqn:El; simpl.
        - split; [|split].
          + intros name Hs. destruct (decide (lower item = name)) as [<-|Hne].
            * rewrite lookup_insert_eq. eauto.
            * by rewrite lookup_insert_ne.
          + intros name t Ht. destruct (decide (lower item = name)) as [<-|Hne].
            * rewrite lookup_insert_eq in Ht. injection Ht as <-.
              right. apply Nat.ltb_lt in El. done.
            * rewrite lookup_insert_ne in Ht by done. by left.
          + by apply prefix_app_r.
        - split; [done|]. split; [by left|].
          rewrite <- app_assoc. by apply prefix_app_r. }
      destruct Hw2 as (Hkeep2 & Hnew2 & Hlog2).
      split; [|split].
      * intros name Hs. by apply Hkeep, Hkeep2.
      * intros name t Ht. destruct (Hnew name t Ht) as [Hold|(it & Hit & ? & ? & ?)].
        -- destruct (Hnew2 name t Hold) as [|(-> & ? & ->)]; [by left|].
           right. exists item. split; [left|done].
        -- right. exists it. split; [by right|done].
      * by etrans.
Qed.

End Store.

(** X22: [get_feed_data] only adds to the store: a name that held a table
    keeps one; a table that it holds afterwards was there before or is the
    non-empty table of a member of the group, under the member's lower-case
    name; the log is only extended; and a value returned tells whether the
    fractal has the letter [d].  This holds whether the call returns or
    raises. *)
Theorem store_only_grows (strftime_date : Q → string)
    (requests_get : Url → string) (now_start now_end : Q)
    (DataReader : string → string → Q → Q → result DailyFrame)
    (group : Group) (lookback_period : Z) (w : World) :
  let daily_data := contains "d" (fractal (space group)) in
  let out :=
    get_feed_data strftime_date requests_get now_start now_end DataReader
      group lookback_period w in
  (∀ name, is_Some (frames w !! name) → is_Some (frames out.2 !! name)) ∧
  (∀ name t, frames out.2 !! name = Some t →
     frames w !! name = Some t ∨
     ∃ item, item ∈ members group ∧ name = lower item ∧ (0 < len t)%nat ∧
             feed_item strftime_date requests_get now_start now_end DataReader
               daily_data (space group) lookback_period item = ok t) ∧
  log w `prefix_of` log out.2 ∧
  (∀ b, out.1 = ok b → b = daily_data).
Proof.
  intros daily_data out. subst out. unfold get_feed_data. fold daily_data.
  match goal with |- context [feed_loop _ _ _ _ _ _ _ _ _ ?w1] =>
    pose proof (feed_loop_store strftime_date requests_get now_start now_end
                  DataReader daily_data (space group) lookback_period
                  (members group) w1) as H; set (w1' := w1) in * end.
  cbv zeta in H.
  destruct (feed_loop _ _ _ _ _ _ _ _ _ w1') as [r w'] eqn:E. simpl in *.
  destruct H as (Hkeep & Hnew & Hlog).
  split; [exact Hkeep|]. split; [exact Hnew|]. split.
  - etrans; [|exact Hlog]. subst w1'. simpl. by apply prefix_app_r.
  - intros b. destruct r as [e|[]]; simpl; [done|]. by intros [= <-].
Qed.

Lemma store_only_grows_witness :
  log empty_world `prefix_of`
    log (get_feed_data utc_date quiet_then_three 0 0 no_rows two_symbols 10
           empty_world).2.
Proof.
  exact (proj1 (proj2 (proj2 (store_only_grows utc_date quiet_then_three 0 0
           no_rows two_symbols 10 empty_world)))).
Defined.

(** ** Streams that continue with an anchor *)

Section Streams.

Variable strftime_date : Q → string.

Lemma parse_lines_from_nil (interval : Z) (text : list string) :
  ∀ d acc,
    parse_lines strftime_date interval d acc text =
      let* rs := parse_lines strftime_date interval d [] text in ok (acc ++ rs).
Proof.
  induction text as [|line text IH]; intros d acc; simpl.
  - by rewrite app_nil_r.
  - destruct (parse_line strftime_date interval d line) as [e|[d' [r|]]];
      simpl; [done| |apply IH].
    rewrite (IH d' (acc ++ [r])), (IH d' [r]).
    destruct (parse_lines strftime_date interval d' [] text); simpl; [done|].
    by rewrite <- app_assoc.
Qed.

Lemma parse_lines_app (interval : Z) (t1 : list string) :
  ∀ d acc rs1,
    parse_lines strftime_date interval d acc t1 = ok rs1 →
    ∃ d', ∀ rest,
      parse_lines strftime_date interval d acc (t1 ++ rest) =
        parse_lines strftime_date interval d' rs1 rest.
Proof.
  induction t1 as [|line t1 IH]; intros d acc rs1; simpl.
  - intros [= <-]. by exists d.
  - destruct (parse_line strftime_date interval d line) as [e|[d' [r|]]];
      simpl; [done|apply IH..].
Qed.

(** X23: a stream that continues with an anchor line is decoded as its two
    parts decoded one by one and put together: the part from the anchor on
    takes nothing from the lines before it. *)
Theorem anchor_restarts_decoding (interval : Z) (d : option Q)
    (t1 t2 : list string) (anchor : string) (b : Q) (rs1 : list Record_) :
  parse_lines strftime_date interval d [] t1 = ok rs1 →
  classify anchor = Anchor b →
  parse_lines strftime_date interval d [] (t1 ++ anchor :: t2) =
    let* rs2 := parse_lines strftime_date interval None [] (anchor :: t2) in
    ok (rs1 ++ rs2).
Proof.
  intros H1 Ha.
  destruct (parse_lines_app interval t1 d [] rs1 H1) as [d' ->].
  rewrite (parse_lines_from_nil interval (anchor :: t2) d' rs1).
  by rewrite !(parse_lines_anchor _ _ _ _ _ _ _ Ha).
Qed.

End Streams.

Lemma anchor_restarts_decoding_witness :
  parse_lines utc_date 300 None []
    (feed_three ++ "a1609545600,20,22,19,21,500" :: ["1,20,22,19,21,600"]) =
  let* rs2 := parse_lines utc_date 300 None []
                ("a1609545600,20,22,19,21,500" :: ["1,20,22,19,21,600"]) in
  ok ([record_of utc_date 1609459200
         ["a1609459200"; "10"; "12"; "9"; "11"; "1000"];
       record_of utc_date (1609459200 + 300)
         ["1"; "10.5"; "12.5"; "9.5"; "11.5"; "2000"];
       record_of utc_date (1609459200 + 600)
         ["2"; "10.7"; "12.7"; "9.7"; "11.7"; "1500"]] ++ rs2).
Proof.
  exact (anchor_restarts_decoding utc_date 300 None feed_three
           ["1,20,22,19,21,600"] "a1609545600,20,22,19,21,500" 1609545600 _
           eq_refl eq_refl).
Defined.

(** ** Column labels of the daily frame *)

Lemma lower_char_facts (c : ascii) :
  let c' := if is_upper c then shift_char 32 c else c in
  is_upper c' = false ∧
  (if is_upper c' then shift_char 32 c' else c') = c'.
Proof. destruct c as [[] [] [] [] [] [] [] []]; split; reflexivity. Qed.

(** X24: the renaming of the daily columns is idempotent, and a renamed
    label has neither a space nor an upper-case ASCII letter. *)
Theorem rename_column_canonical (x : string) :
  rename_column (rename_column x) = rename_column x ∧
  contains " " (rename_column x) = false ∧
  (∀ c, contains c (rename_column x) = true → is_upper c = false).
Proof.
  unfold rename_column, lower.
  induction x as [|c x (IH1 & IH2 & IH3)]; [by split|].
  cbn [map_string remove_spaces].
  set (c' := if is_upper c then shift_char 32 c else c) in *.
  destruct (lower_char_facts c) as [Hup Hid]. fold c' in Hup, Hid.
  destruct (Ascii.eqb_spec c' " ") as [Heq|Hne]; [done|].
  cbn [map_string remove_spaces contains]. rewrite Hid.
  destruct (Ascii.eqb_spec c' " ") as [|_]; [done|].
  split; [by rewrite IH1|]. split.
  - destruct (Ascii.eqb_spec " " c') as [Heq|_]; [by rewrite <- Heq in Hne|done].
  - intros a Ha. apply orb_prop in Ha as [Ha|Ha]; [|by apply IH3].
    apply Ascii.eqb_eq in Ha as ->. done.
Qed.
